(** * SeisHub client ([obspy/seishub/client.py]): query encoding, waveform
      retrieval and poles-and-zeros extraction

    A shallow embedding of [Client], [_WaveformMapperClient] and
    [_StationMapperClient].  Python dictionaries are finite maps, raised
    exceptions are the [Raise] outcome, and every call of [urllib2.urlopen]
    is recorded in a log threaded through the computation. *)

From Stdlib Require Import Ascii.
From stdpp Require Import base option list strings gmap fin_maps pretty.

Set Warnings "-register-all".

(** ** Outcomes of Python code *)

Inductive exn :=
| IndexError                (* list index out of range, index of an empty str *)
| KeyError                  (* missing dictionary key *)
| AttributeError            (* objectify: no such child *)
| TypeError
| NoWaveformData            (* Exception("No waveform data available") *)
| ExternalError (msg : string). (* raised inside urllib2, lxml, pickle, obspy.core *)

Inductive outcome (A : Type) :=
| Return (a : A)
| Raise (e : exn).
Arguments Return {A} a.
Arguments Raise {A} e.

#[global] Instance outcome_ret : MRet outcome := λ A a, Return a.
#[global] Instance outcome_bind : MBind outcome := λ A B k o,
  match o with
  | Return a => k a
  | Raise e => Raise e
  end.

(** [l[0]] on a Python list. *)
Definition first_item {A} (l : list A) : outcome A :=
  match l with
  | x :: _ => Return x
  | [] => Raise IndexError
  end.

(** ** Types owned by the collaborators *)

Class Domain := {
  time : Type;     (* obspy.core.UTCDateTime *)
  float : Type;    (* Python float: sample rates, durations in seconds *)
  trace : Type;    (* obspy.core.Trace; a Stream is a list of traces *)
  number : Type;   (* Python numbers, complex included *)
}.

(** ** Python values passed as query arguments *)

Inductive value `{Domain} :=
| VNone
| VBool (b : bool)
| VInt (n : Z)
| VStr (s : string)
| VTuple (l : list value)
| VList (l : list value)
| VTime (t : time).

(** [bool(value)]; a datetime instance is always true. *)
Definition truthy `{Domain} (v : value) : bool :=
  match v with
  | VNone => false
  | VBool b => b
  | VInt n => negb (n =? 0)%Z
  | VStr s => negb (String.eqb s "")
  | VTuple l | VList l => match l with [] => false | _ => true end
  | VTime _ => true
  end.

(** ** lxml elements

    An element has a tag, the text before its first child, its children and
    the text that follows it up to the next sibling. *)

Inductive element :=
| Element (tag text : string) (children : list element) (tail : string).

Definition tag (e : element) : string := let 'Element t _ _ _ := e in t.
Definition text (e : element) : string := let 'Element _ s _ _ := e in s.
Definition children (e : element) : list element := let 'Element _ _ c _ := e in c.
Definition tail (e : element) : string := let 'Element _ _ _ s := e in s.

(** XPath string-value: every text node below the element, in document order. *)
Fixpoint string_value (e : element) : string :=
  let 'Element _ s kids _ := e in
  s +:+ (fix below (l : list element) : string :=
           match l with
           | [] => ""
           | k :: r => string_value k +:+ tail k +:+ below r
           end) kids.

Definition has_tag (name : string) (e : element) : bool := String.eqb (tag e) name.

(** ** The collaborators themselves *)

Class Env `{Domain} := {
  (* builtins and urllib *)
  py_str : value → string;
  iteritems : gmap string value → list (string * value);
  iteritems_perm : ∀ d, iteritems d ≡ₚ map_to_list d;
  urlencode : gmap string string → string;
  (* the remote side of urllib2.urlopen(addr).read() *)
  urlopen : string → outcome string;
  (* lxml.objectify *)
  fromstring : string → outcome element;
  numeric : element → option number;          (* the number a data element stands for *)
  (* p[0] + p[1] * 1j when a part is no number: lxml raises, or concatenates
     the text of p[0] and str(p[1] * 1j) into a str *)
  str_sum : element → element → outcome string;
  str_add : string → element → outcome string; (* s + e for a str s *)
  lxml_xpath : string → element → outcome (list element);
  (* Python arithmetic on numbers *)
  num_add : number → number → number;
  num_mul : number → number → number;
  imag_unit : number;                       (* 1j *)
  (* obspy.core *)
  BAND_CODE : gmap string float;
  UTCDateTime : string → outcome time;
  two : float;                              (* 2.0 *)
  fdiv : float → float → float;
  time_sub : time → float → time;
  time_add : time → float → time;
  trim : list trace → time → time → list trace;
  (* pickle *)
  loads : string → outcome (list trace);
}.

(** ** Computations that may open URLs *)

Definition M (A : Type) : Type := list string → outcome A * list string.

#[global] Instance M_ret : MRet M := λ A a log, (Return a, log).
#[global] Instance M_bind : MBind M := λ A B k m log,
  match m log with
  | (Return a, log') => k a log'
  | (Raise e, log') => (Raise e, log')
  end.

Definition raise {A} (e : exn) : M A := λ log, (Raise e, log).
Definition lift {A} (o : outcome A) : M A := λ log, (o, log).

Module Client.

Record t := { base_url : string }.

(** One iteration of the loop over [kwargs.iteritems()]. *)
Definition add_param `{Env} (params : gmap string string) (kv : string * value)
  : gmap string string :=
  let '(key, value) := kv in
  if negb (truthy value) then params
  else match value with
       | VTuple [lo; hi] =>
           <["max_" +:+ key := py_str hi]> (<["min_" +:+ key := py_str lo]> params)
       | VList [lo; hi] =>
           <["max_" +:+ key := py_str hi]> (<["min_" +:+ key := py_str lo]> params)
       | _ => <[key := py_str value]> params
       end.

(** The [params] dictionary handed to [urllib.urlencode]. *)
Definition query_params `{Env} (kwargs : gmap string value) : gmap string string :=
  foldl add_param ∅ (iteritems kwargs).

Definition remoteaddr `{Env} (self : t) (url : string) (kwargs : gmap string value)
  : string :=
  base_url self +:+ url +:+ "?" +:+ urlencode (query_params kwargs).

(** The call [self._fetch(url, **kwargs)] binds [self] and [url] by position:
    a keyword of one of these names is a [TypeError] at the call. *)
Definition reserved `{Domain} (kwargs : gmap string value) : bool :=
  bool_decide (is_Some (kwargs !! "url")) || bool_decide (is_Some (kwargs !! "self")).

(** [_fetch(url, **kwargs)].  Both branches on [sys.hexversion] open
    [remoteaddr] and read the body. *)
Definition _fetch `{Env} (self : t) (url : string) (kwargs : gmap string value)
  : M string :=
  if reserved kwargs then raise TypeError
  else λ log, let addr := remoteaddr self url kwargs in (urlopen addr, log ++ [addr]).

(** [_objectify(url, **kwargs)]: the same binding, then the same again in
    the call of [_fetch]. *)
Definition _objectify `{Env} (self : t) (url : string) (kwargs : gmap string value)
  : M element :=
  doc ← _fetch self url kwargs;
  lift (fromstring doc).

End Client.

(** ** Helpers for Python idioms *)

(** [d[key]] on a dictionary. *)
Definition getitem {V} (d : gmap string V) (key : string) : outcome V :=
  match d !! key with
  | Some v => Return v
  | None => Raise KeyError
  end.

(** [s[0]] on a str: a str of length one. *)
Definition str_first (s : string) : outcome string :=
  match s with
  | String c _ => Return (String c EmptyString)
  | EmptyString => Raise IndexError
  end.

(** [t in s] on two strs: [t] occurs in [s]. *)
Fixpoint str_in (t s : string) : bool :=
  String.prefix t s ||
  match s with
  | EmptyString => false
  | String _ s' => str_in t s'
  end.

(** [for i in range(len(args)): kwargs[map[i]] = args[i]] *)
Fixpoint assign_positional `{Domain} (map : list string) (args : list value)
    (kwargs : gmap string value) : outcome (gmap string value) :=
  match args with
  | [] => Return kwargs
  | a :: args' =>
      match map with
      | [] => Raise IndexError
      | name :: map' => assign_positional map' args' (<[name := a]> kwargs)
      end
  end.

(** [','.join(l)] *)
Fixpoint join_strs `{Domain} (l : list value) : outcome (list string) :=
  match l with
  | [] => Return []
  | VStr s :: r => rest ← join_strs r; Return (s :: rest)
  | _ :: _ => Raise TypeError
  end.

(** A start or end time as the caller gives it. *)
Inductive timearg `{Domain} :=
| TStr (s : string)
| TUTC (t : time).

Definition timearg_value `{Domain} (a : timearg) : value :=
  match a with
  | TStr s => VStr s
  | TUTC t => VTime t
  end.

(** [if isinstance(x, str): x = UTCDateTime(x)] *)
Definition to_utc `{Env} (a : timearg) : outcome time :=
  match a with
  | TStr s => UTCDateTime s
  | TUTC t => Return t
  end.

Module _WaveformMapperClient.

Record t := { client : Client.t }.

(** [kwargs] after the named arguments of [getWaveform] were copied into it. *)
Definition named_kwargs `{Domain} (network_id station_id location_id channel_id : string)
    (start_datetime end_datetime : timearg) (apply_filter : bool)
    (kwargs : gmap string value) : gmap string value :=
  <["apply_filter" := VBool apply_filter]>
  (<["end_datetime" := timearg_value end_datetime]>
  (<["start_datetime" := timearg_value start_datetime]>
  (<["channel_id" := VStr channel_id]>
  (<["location_id" := VStr location_id]>
  (<["station_id" := VStr station_id]>
  (<["network_id" := VStr network_id]> kwargs)))))).

(** [kwargs] as sent: both ends moved outwards by two samples. *)
Definition padded_kwargs `{Env} (kwargs : gmap string value) (start end_ : time)
    (rate : float) : gmap string value :=
  <["end_datetime" := VTime (time_add end_ (fdiv two rate))]>
  (<["start_datetime" := VTime (time_sub start (fdiv two rate))]> kwargs).

Definition getWaveform `{Env} (self : t)
    (network_id station_id location_id channel_id : string)
    (start_datetime end_datetime : timearg) (apply_filter : bool)
    (kwargs : gmap string value) : M (list trace) :=
  let kwargs := named_kwargs network_id station_id location_id channel_id
                  start_datetime end_datetime apply_filter kwargs in
  band_code ← lift (str_first channel_id);          (* kwargs['channel_id'][0] *)
  start ← lift (to_utc start_datetime);
  rate ← lift (getitem BAND_CODE band_code);
  let kwargs := <["start_datetime" := VTime (time_sub start (fdiv two rate))]> kwargs in
  end_ ← lift (to_utc end_datetime);
  rate' ← lift (getitem BAND_CODE band_code);
  let kwargs := <["end_datetime" := VTime (time_add end_ (fdiv two rate'))]> kwargs in
  data ← Client._fetch (client self) "/seismology/waveform/getWaveform" kwargs;
  if String.eqb data "" then raise NoWaveformData
  else
    stream ← lift (loads data);
    if length stream =? 0 then raise NoWaveformData
    else mret (trim stream start end_).

Definition getPreview `{Env} (self : t) (args : list value)
    (kwargs : gmap string value) : M (list trace) :=
  kwargs ← lift (assign_positional
                   ["network_id"; "station_id"; "location_id"; "channel_id";
                    "start_datetime"; "end_datetime"; "trace_ids"] args kwargs);
  data ← Client._fetch (client self) "/seismology/waveform/getPreview" kwargs;
  if String.eqb data "" then raise NoWaveformData
  else
    stream ← lift (loads data);
    mret stream.

(** [kwargs['trace_ids'] = ','.join(kwargs['trace_ids'])] when it is a list. *)
Definition join_trace_ids `{Domain} (kwargs : gmap string value)
  : outcome (gmap string value) :=
  match kwargs !! "trace_ids" with
  | Some (VList ids) =>
      strs ← join_strs ids;
      Return (<["trace_ids" := VStr (String.concat "," strs)]> kwargs)
  | _ => Return kwargs
  end.

Definition getPreviewByIds `{Env} (self : t) (args : list value)
    (kwargs : gmap string value) : M (list trace) :=
  kwargs ← lift (assign_positional
                   ["trace_ids"; "start_datetime"; "end_datetime"] args kwargs);
  kwargs ← lift (join_trace_ids kwargs);
  data ← Client._fetch (client self) "/seismology/waveform/getPreview" kwargs;
  if String.eqb data "" then raise NoWaveformData
  else
    stream ← lift (loads data);
    mret stream.

End _WaveformMapperClient.

(** ** lxml.objectify access paths *)

(** All children of [e] called [name]: what [e.name[:]] lists. *)
Definition named_children (e : element) (name : string) : list element :=
  filter (λ c, has_tag name c = true) (children e).

(** [e.name]: the first child called [name]. *)
Definition getattr (e : element) (name : string) : outcome element :=
  match named_children e name with
  | c :: _ => Return c
  | [] => Raise AttributeError
  end.

(** [e.name[:]] *)
Definition getattr_all (e : element) (name : string) : outcome (list element) :=
  _ ← getattr e name;
  Return (named_children e name).

(** [e.name[-1]] *)
Definition getattr_last (e : element) (name : string) : outcome element :=
  first ← getattr e name;
  Return (List.last (named_children e name) first).

(** [node.__dict__]: the first child under each tag. *)
Definition __dict__ (node : element) : gmap string element :=
  foldl (λ d c, match d !! tag c with
                | Some _ => d
                | None => <[tag c := c]> d
                end) ∅ (children node).

(** ** The listing methods of [_WaveformMapperClient] *)

Class Objectify := {
  str_element : element → string;   (* str(e) on an objectified element *)
}.

(** [[str(node[field]) for node in rows]]; [node[field]] is the first child
    called [field]. *)
Fixpoint field_strs `{Objectify} (field : string) (rows : list element)
  : outcome (list string) :=
  match rows with
  | [] => Return []
  | node :: rest =>
      e ← getattr node field;
      strs ← field_strs field rest;
      Return (str_element e :: strs)
  end.

Module _WaveformMapperClient_listing.

Definition getNetworkIds `{Env} `{Objectify} (self : _WaveformMapperClient.t)
    (kwargs : gmap string value) : M (list string) :=
  root ← Client._objectify (_WaveformMapperClient.client self)
           "/seismology/waveform/getNetworkIds" kwargs;
  lift (field_strs "network" (children root)).

Definition getStationIds `{Env} `{Objectify} (self : _WaveformMapperClient.t)
    (kwargs : gmap string value) : M (list string) :=
  root ← Client._objectify (_WaveformMapperClient.client self)
           "/seismology/waveform/getStationIds" kwargs;
  lift (field_strs "station" (children root)).

Definition getLocationIds `{Env} `{Objectify} (self : _WaveformMapperClient.t)
    (kwargs : gmap string value) : M (list string) :=
  root ← Client._objectify (_WaveformMapperClient.client self)
           "/seismology/waveform/getLocationIds" kwargs;
  lift (field_strs "location" (children root)).

Definition getChannelIds `{Env} `{Objectify} (self : _WaveformMapperClient.t)
    (kwargs : gmap string value) : M (list string) :=
  root ← Client._objectify (_WaveformMapperClient.client self)
           "/seismology/waveform/getChannelIds" kwargs;
  lift (field_strs "channel" (children root)).

Definition getLatency `{Env} (self : _WaveformMapperClient.t) (args : list value)
    (kwargs : gmap string value) : M (list (gmap string element)) :=
  kwargs ← lift (assign_positional
                   ["network_id"; "station_id"; "location_id"; "channel_id"]
                   args kwargs);
  root ← Client._objectify (_WaveformMapperClient.client self)
           "/seismology/waveform/getLatency" kwargs;
  mret (__dict__ <$> children root).

End _WaveformMapperClient_listing.

(** ** The XPath expressions of [getPAZ] *)

(** [name='literal'] inside a predicate. *)
Record comparison := { child_name : string; literal : string }.

(** [step1[c1 and c2]/following-sibling::step2[c3]]; [c3] may be missing. *)
Record sibling_query := {
  anchor_name : string;
  anchor_tests : list comparison;
  target_name : string;
  target_tests : list comparison;
}.

Definition show_comparison (c : comparison) : string :=
  child_name c +:+ "='" +:+ literal c +:+ "'".

Definition show_predicate (cs : list comparison) : string :=
  match cs with
  | [] => ""
  | _ => "[" +:+ String.concat " and " (show_comparison <$> cs) +:+ "]"
  end.

(** The expression as text, as the source concatenates it. *)
Definition show_query (q : sibling_query) : string :=
  anchor_name q +:+ show_predicate (anchor_tests q) +:+
  "/following-sibling::" +:+ target_name q +:+ show_predicate (target_tests q).

(** A literal between apostrophes denotes itself when it has no apostrophe. *)
Definition quotable (s : string) : bool := negb (str_in "'" s).

Definition well_quoted (q : sibling_query) : bool :=
  forallb (λ c, quotable (literal c)) (anchor_tests q ++ target_tests q).

(** [name='literal'] at [e]: some child called [name] has that string-value. *)
Definition compare_at (e : element) (c : comparison) : bool :=
  existsb (λ k, has_tag (child_name c) k && String.eqb (string_value k) (literal c))
          (children e).

Definition node_test (name : string) (cs : list comparison) (e : element) : bool :=
  has_tag name e && forallb (compare_at e) cs.

(** The node-set of a well quoted query at [base]: the child at position [j]
    belongs to it when it passes the target test and follows some child that
    passes the anchor test; the nodes come in document order. *)
Definition select_siblings (q : sibling_query) (base : element) : list element :=
  let kids := children base in
  concat (imap (λ j e,
                  if node_test (target_name q) (target_tests q) e
                     && existsb (node_test (anchor_name q) (anchor_tests q)) (take j kids)
                  then [e] else []) kids).

(** [base.xpath(show_query q)]; an expression outside the modelled fragment
    is left to [lxml_xpath]. *)
Definition xpath `{Env} (base : element) (q : sibling_query) : outcome (list element) :=
  if well_quoted q then Return (select_siblings q base)
  else lxml_xpath (show_query q) base.

Definition channel_tests (channel_id location_id : string) : list comparison :=
  [ {| child_name := "channel_identifier"; literal := channel_id |};
    {| child_name := "location_identifier"; literal := location_id |} ].

Definition paz_query (channel_id location_id : string) : sibling_query :=
  {| anchor_name := "channel_identifier";
     anchor_tests := channel_tests channel_id location_id;
     target_name := "response_poles_and_zeros";
     target_tests := [] |}.

Definition gain_query (channel_id location_id stage : string) : sibling_query :=
  {| anchor_name := "channel_identifier";
     anchor_tests := channel_tests channel_id location_id;
     target_name := "channel_sensitivity_gain";
     target_tests := [ {| child_name := "stage_sequence_number"; literal := stage |} ] |}.

(** ** Values of the dictionary returned by [getPAZ] *)

(** What [p[0] + p[1] * 1j] evaluates to. *)
Inductive item `{Domain} :=
| INumber (z : number)            (* a complex number *)
| IStr (s : string).              (* a str, when lxml concatenates *)

Inductive pazval `{Domain} :=
| PList (l : list item)           (* the list under poles or zeros *)
| PElement (e : element).         (* an objectified data element *)

Module _StationMapperClient.

Record t := { client : Client.t }.

Definition package : string := "seismology".
Definition resourcetype : string := "station".

Definition getList `{Env} (self : t) (args : list value) (kwargs : gmap string value)
  : M (list (gmap string element)) :=
  kwargs ← lift (assign_positional ["network_id"; "station_id"] args kwargs);
  root ← Client._objectify (client self) "/seismology/station/getList" kwargs;
  mret (__dict__ <$> children root).

(** Inherited from [_BaseRESTClient]. *)
Definition getXMLResource `{Env} (self : t) (resource_name : element)
    (kwargs : gmap string value) : M element :=
  url ← lift (str_add ("/xml/" +:+ package +:+ "/" +:+ resourcetype +:+ "/")
                resource_name);
  Client._objectify (client self) url kwargs.

(** The loop over ['*'] and ['?'] that unsets a filter holding a wild card. *)
Definition unset_wildcards (channel_id location_id : string) : string * string :=
  foldl (λ '(channel_id, location_id) t,
           (if str_in t channel_id then "" else channel_id,
            if str_in t location_id then "" else location_id))
        (channel_id, location_id) ["*"; "?"].

(** [if channel_id or location_id] *)
Definition filtered (channel_id location_id : string) : bool :=
  negb (String.eqb channel_id "") || negb (String.eqb location_id "").

(** The PAZ node, the sensitivity node and the seismometer gain node. *)
Definition select_nodes `{Env} (base_node : element) (channel_id location_id : string)
  : outcome (element * element * element) :=
  if filtered channel_id location_id then
    paz_node ← xpath base_node (paz_query channel_id location_id) ≫= first_item;
    sensitivity_node ←
      xpath base_node (gain_query channel_id location_id "0") ≫= first_item;
    seismometer_gain_node ←
      xpath base_node (gain_query channel_id location_id "1") ≫= first_item;
    Return (paz_node, sensitivity_node, seismometer_gain_node)
  else
    paz_node ← getattr_all base_node "response_poles_and_zeros" ≫= first_item;
    sensitivity_node ← getattr_last base_node "channel_sensitivity_gain";
    seismometer_gain_node ←
      getattr_all base_node "channel_sensitivity_gain" ≫= first_item;
    Return (paz_node, sensitivity_node, seismometer_gain_node).

(** [p[0] + p[1] * 1j] *)
Definition to_complex `{Env} (p : element * element) : outcome item :=
  match numeric p.1, numeric p.2 with
  | Some re, Some im => Return (INumber (num_add re (num_mul im imag_unit)))
  | _, _ => s ← str_sum p.1 p.2; Return (IStr s)
  end.

(** [[p[0] + p[1] * 1j for p in pairs]] *)
Fixpoint complex_list `{Env} (pairs : list (element * element)) : outcome (list item) :=
  match pairs with
  | [] => Return []
  | p :: rest =>
      z ← to_complex p;
      zs ← complex_list rest;
      Return (z :: zs)
  end.

(** The dictionary built from the three selected nodes. *)
Definition build_paz `{Env} (paz_node sensitivity_node seismometer_gain_node : element)
    (seismometer_gain : bool) : outcome (gmap string pazval) :=
  let paz : gmap string pazval := ∅ in
  complex_pole ← getattr paz_node "complex_pole";
  poles_real ← getattr_all complex_pole "real_pole";
  poles_imag ← getattr_all complex_pole "imaginary_pole";
  poles ← complex_list (zip poles_real poles_imag);
  let paz := <["poles" := PList poles]> paz in
  complex_zero ← getattr paz_node "complex_zero";
  zeros_real ← getattr_all complex_zero "real_zero";
  zeros_imag ← getattr_all complex_zero "imaginary_zero";
  zeros ← complex_list (zip zeros_real zeros_imag);
  let paz := <["zeros" := PList zeros]> paz in
  gain ← getattr paz_node "A0_normalization_factor";
  let paz := <["gain" := PElement gain]> paz in
  sensitivity ← getattr sensitivity_node "sensitivity_gain";
  let paz := <["sensitivity" := PElement sensitivity]> paz in
  if seismometer_gain then
    sg ← getattr seismometer_gain_node "sensitivity_gain";
    Return (<["seismometer_gain" := PElement sg]> paz)
  else Return paz.

(** From the station control header to the result. *)
Definition paz_of_header `{Env} (base_node : element) (channel_id location_id : string)
    (seismometer_gain : bool) : outcome (gmap string pazval) :=
  '(paz_node, sensitivity_node, seismometer_gain_node) ←
    select_nodes base_node channel_id location_id;
  build_paz paz_node sensitivity_node seismometer_gain_node seismometer_gain.

(** The station control header of the first listed resource. *)
Definition fetch_header `{Env} (self : t) (station_list : list (gmap string element))
  : M element :=
  xml_doc ← lift (first_item station_list);
  resource_name ← lift (getitem xml_doc "resource_name");
  res ← getXMLResource self resource_name ∅;
  lift (getattr res "station_control_header").

(** [network_id=network_id, station_id=station_id, datetime=datetime] *)
Definition list_kwargs `{Domain} (network_id station_id datetime : value)
  : gmap string value :=
  <["datetime" := datetime]>
    (<["station_id" := station_id]> (<["network_id" := network_id]> ∅)).

Definition getPAZ `{Env} (self : t) (network_id station_id datetime : value)
    (location_id channel_id : string) (seismometer_gain : bool)
  : M (gmap string pazval) :=
  station_list ← getList self [] (list_kwargs network_id station_id datetime);
  match station_list with
  | [] => mret ∅
  | _ :: _ =>
      let '(channel_id, location_id) := unset_wildcards channel_id location_id in
      base_node ← fetch_header self station_list;
      lift (paz_of_header base_node channel_id location_id seismometer_gain)
  end.

End _StationMapperClient.

(** ** Notions used to state the properties *)

(** The two bounds of a value that [_fetch] treats as a range. *)
Definition range_bounds `{Domain} (v : value) : option (value * value) :=
  match v with
  | VTuple [lo; hi] => Some (lo, hi)
  | VList [lo; hi] => Some (lo, hi)
  | _ => None
  end.

(** What one query argument is meant to become in the query. *)
Definition encoded_as `{Env} (params : gmap string string) (k : string) (v : value)
  : Prop :=
  if truthy v then
    match range_bounds v with
    | Some (lo, hi) =>
        params !! ("min_" +:+ k) = Some (py_str lo) ∧
        params !! ("max_" +:+ k) = Some (py_str hi) ∧
        params !! k = None
    | None => params !! k = Some (py_str v)
    end
  else params !! k = None.

Definition encodes_all `{Env} (kwargs : gmap string value) : Prop :=
  ∀ k v, kwargs !! k = Some v → encoded_as (Client.query_params kwargs) k v.

(** No argument is called like a bound generated for a range argument. *)
Definition clash_free `{Domain} (kwargs : gmap string value) : bool :=
  forallb (λ kv, match range_bounds kv.2 with
                 | Some _ => bool_decide (kwargs !! ("min_" +:+ kv.1) = None)
                             && bool_decide (kwargs !! ("max_" +:+ kv.1) = None)
                 | None => true
                 end) (map_to_list kwargs).

(** The parameters one argument writes, in the order it writes them. *)
Definition writes `{Env} (kv : string * value) : list (string * string) :=
  if truthy kv.2 then
    match range_bounds kv.2 with
    | Some (lo, hi) => [("min_" +:+ kv.1, py_str lo); ("max_" +:+ kv.1, py_str hi)]
    | None => [(kv.1, py_str kv.2)]
    end
  else [].

Definition write (params : gmap string string) (w : string * string)
  : gmap string string := <[w.1 := w.2]> params.

(** [p[0] + p[1] * 1j] on two numbers. *)
Definition complex_of `{Env} (re im : number) : number :=
  num_add re (num_mul im imag_unit).

(** The call finds its station listed and fetches its control header
    [base_node], taking the log from [log] to [log']. *)
Definition resolves `{Env} (self : _StationMapperClient.t)
    (network_id station_id datetime : value) (log : list string)
    (base_node : element) (log' : list string) : Prop :=
  ∃ row rows log1,
    _StationMapperClient.getList self []
      (_StationMapperClient.list_kwargs network_id station_id datetime) log
    = (Return (row :: rows), log1) ∧
    _StationMapperClient.fetch_header self (row :: rows) log1 = (Return base_node, log').

(** A filter holding a wild card counts as unset. *)
Definition unset_if_wildcard (s : string) : string :=
  if str_in "*" s || str_in "?" s then "" else s.

(** The siblings that follow the first element passing [anchor]. *)
Fixpoint after_first (anchor : element → bool) (l : list element)
  : option (list element) :=
  match l with
  | [] => None
  | e :: r => if anchor e then Some r else after_first anchor r
  end.

(** The nearest sibling passing [target] after the first one passing [anchor]. *)
Definition nearest_following (anchor target : element → bool) (l : list element)
  : option element :=
  after_first anchor l ≫= find target.

(** The matching [channel_identifier] node of the filtered branch. *)
Definition is_channel (channel_id location_id : string) : element → bool :=
  node_test "channel_identifier" (channel_tests channel_id location_id).

Definition is_paz : element → bool := has_tag "response_poles_and_zeros".

Definition is_gain_stage (stage : string) : element → bool :=
  node_test "channel_sensitivity_gain"
    [ {| child_name := "stage_sequence_number"; literal := stage |} ].

(** ** A small concrete world

    Instants are milliseconds, a trace is the interval it covers, numbers are
    Gaussian integers, and the server knows two stations. *)

Module Fixture.

Definition domain : Domain :=
  {| time := Z; float := Z; trace := Z * Z; number := Z * Z |}.

Definition digit (c : ascii) : option Z :=
  let n := nat_of_ascii c in
  if (48 <=? n) && (n <=? 57) then Some (Z.of_nat (n - 48)) else None.

Fixpoint read_digits (acc : Z) (s : string) : option Z :=
  match s with
  | EmptyString => Some acc
  | String c r => d ← digit c; read_digits (10 * acc + d)%Z r
  end.

Definition read_Z (s : string) : option Z :=
  match s with
  | EmptyString => None
  | String "-"%char r => match r with
                    | EmptyString => None
                    | _ => Z.opp <$> read_digits 0 r
                    end
  | _ => read_digits 0 s
  end.

Definition show_Z (n : Z) : string := pretty n.

Definition str (v : @value domain) : string :=
  match v with
  | VNone => "None"
  | VBool true => "True"
  | VBool false => "False"
  | VInt n => show_Z n
  | VStr s => s
  | VTuple _ => "(...)"
  | VList _ => "[...]"
  | VTime t => show_Z t
  end.

Definition encode (params : gmap string string) : string :=
  String.concat "&" ((λ kv, kv.1 +:+ "=" +:+ kv.2) <$> map_to_list params).

Definition server (addr : string) : outcome string :=
  if str_in "/seismology/station/getList?" addr then
    if str_in "station_id=MANZ" addr then Return "<stations>MANZ</stations>"
    else if str_in "station_id=RJOB" addr then Return "<stations>RJOB</stations>"
    else Return "<stations/>"
  else if str_in "/xml/seismology/station/manz.xml?" addr then Return "<xseed>MANZ</xseed>"
  else if str_in "/xml/seismology/station/rjob.xml?" addr then Return "<xseed>RJOB</xseed>"
  else if str_in "/seismology/waveform/" addr then
    if str_in "MANZ" addr then Return "pickle:1"
    else if str_in "RJOB" addr then Return "pickle:0"
    else Return ""
  else Raise (ExternalError "HTTP Error 404").

Definition leaf (name content : string) : element := Element name content [] "".
Definition node (name : string) (kids : list element) : element := Element name "" kids "".

Definition channel (location_id channel_id : string) : element :=
  node "channel_identifier"
    [leaf "location_identifier" location_id; leaf "channel_identifier" channel_id].

Definition response (a0 : string) (re im : list string) : element :=
  node "response_poles_and_zeros"
    [leaf "A0_normalization_factor" a0;
     node "complex_zero" [leaf "real_zero" "0"; leaf "imaginary_zero" "0"];
     node "complex_pole" ((leaf "real_pole" <$> re) ++ (leaf "imaginary_pole" <$> im))].

Definition gain (stage sensitivity : string) : element :=
  node "channel_sensitivity_gain"
    [leaf "stage_sequence_number" stage; leaf "sensitivity_gain" sensitivity].

Definition manz_header : element :=
  node "station_control_header"
    [leaf "station_identifier" "MANZ";
     channel "" "EHZ"; response "600" ["1"; "2"] ["3"; "4"];
     gain "1" "400"; gain "2" "7"; gain "0" "2800";
     channel "" "EHN"; response "601" ["-5"] ["6"];
     gain "1" "401"; gain "0" "2801"].

Definition rjob_header : element :=
  node "station_control_header"
    [channel "" "EHZ"; response "700" ["1"] ["1"]; gain "0" "2900"].

Definition parse (doc : string) : outcome element :=
  if String.eqb doc "<stations>MANZ</stations>" then
    Return (node "stations" [node "item" [leaf "resource_name" "manz.xml"]])
  else if String.eqb doc "<stations>RJOB</stations>" then
    Return (node "stations" [node "item" [leaf "resource_name" "rjob.xml"]])
  else if String.eqb doc "<stations/>" then Return (node "stations" [])
  else if String.eqb doc "<xseed>MANZ</xseed>" then Return (node "xseed" [manz_header])
  else if String.eqb doc "<xseed>RJOB</xseed>" then Return (node "xseed" [rjob_header])
  else Raise (ExternalError "XMLSyntaxError").

Definition reading (e : element) : option (Z * Z) :=
  match children e with
  | [] => (λ n, (n, 0%Z)) <$> read_Z (text e)
  | _ => None
  end.

Definition glue (re im : element) : outcome string :=
  match children re, reading im with
  | [], Some z => Return (text re +:+ show_Z z.1 +:+ "j")
  | _, _ => Raise TypeError
  end.

Definition unpickle (data : string) : outcome (list (Z * Z)) :=
  if String.eqb data "pickle:1" then Return [(0, 100000)%Z]
  else if String.eqb data "pickle:0" then Return []
  else Raise (ExternalError "UnpicklingError").

Definition clip (stream : list (Z * Z)) (s e : Z) : list (Z * Z) :=
  (λ tr, (Z.max tr.1 s, Z.min tr.2 e)) <$> stream.

Definition parse_time (s : string) : outcome Z :=
  match read_Z s with
  | Some t => Return t
  | None => Raise (ExternalError "ValueError")
  end.

Definition env : @Env domain :=
  {| py_str := str;
     iteritems := map_to_list;
     iteritems_perm := λ d, reflexivity (map_to_list d);
     urlencode := encode;
     urlopen := server;
     fromstring := parse;
     numeric := reading;
     str_sum := glue;
     str_add := λ s e, Return (s +:+ text e);
     lxml_xpath := λ _ _, Raise (ExternalError "XPathEvalError");
     num_add := λ x y, (x.1 + y.1, x.2 + y.2)%Z;
     num_mul := λ x y, (x.1 * y.1 - x.2 * y.2, x.1 * y.2 + x.2 * y.1)%Z;
     imag_unit := (0, 1)%Z;
     BAND_CODE := {[ "E" := 80%Z; "B" := 10%Z; "L" := 1%Z ]};
     UTCDateTime := parse_time;
     two := 2000%Z;
     fdiv := Z.div;
     time_sub := Z.sub;
     time_add := Z.add;
     trim := clip;
     loads := unpickle |}.

Definition seishub : Client.t := {| Client.base_url := "http://localhost:8080" |}.
Definition station : _StationMapperClient.t := {| _StationMapperClient.client := seishub |}.
Definition waveform : _WaveformMapperClient.t := {| _WaveformMapperClient.client := seishub |}.

(** A second server, for the listing methods, for two stations whose
    answers lack something and for one whose channel codes hold an
    apostrophe. *)
Definition listing_server (addr : string) : outcome string :=
  if str_in "/seismology/waveform/getNetworkIds?" addr then Return "<networks/>"
  else if str_in "/seismology/waveform/getStationIds?" addr then Return "<stations/>"
  else if str_in "/seismology/waveform/getLatency?" addr then Return "<latency/>"
  else if str_in "/seismology/station/getList?" addr then
    if str_in "station_id=BARE" addr then Return "<list>BARE</list>"
    else if str_in "station_id=ANON" addr then Return "<list>ANON</list>"
    else if str_in "station_id=QUOT" addr then Return "<list>QUOT</list>"
    else Return "<list/>"
  else if str_in "/xml/seismology/station/bare.xml?" addr then Return "<xseed>BARE</xseed>"
  else if str_in "/xml/seismology/station/quot.xml?" addr then Return "<xseed>QUOT</xseed>"
  else Raise (ExternalError "HTTP Error 404").

(** A station whose channel codes hold an apostrophe. *)
Definition quot_header : element :=
  node "station_control_header"
    [channel "" "E'Z"; response "800" ["1"] ["2"]; gain "1" "500"; gain "0" "3000";
     channel "" "E'N"; response "801" ["3"] ["4"]; gain "0" "3001"].

Definition listing_parse (doc : string) : outcome element :=
  if String.eqb doc "<networks/>" then
    Return (node "result" [node "item" [leaf "network" "BW"];
                           node "item" [leaf "network" "GR"; leaf "network" "XX"]])
  else if String.eqb doc "<stations/>" then
    Return (node "result" [node "item" [leaf "station" "MANZ"];
                           node "item" [leaf "network" "BW"]])
  else if String.eqb doc "<latency/>" then
    Return (node "result" [node "item" [leaf "network" "BW"; leaf "latency" "3"]])
  else if String.eqb doc "<list>BARE</list>" then
    Return (node "stations" [node "item" [leaf "resource_name" "bare.xml"]])
  else if String.eqb doc "<list>ANON</list>" then
    Return (node "stations" [node "item" [leaf "station_id" "ANON"]])
  else if String.eqb doc "<list>QUOT</list>" then
    Return (node "stations" [node "item" [leaf "resource_name" "quot.xml"]])
  else if String.eqb doc "<xseed>QUOT</xseed>" then Return (node "xseed" [quot_header])
  else if String.eqb doc "<list/>" then Return (node "stations" [])
  else if String.eqb doc "<xseed>BARE</xseed>" then
    Return (node "xseed" [node "station_control_header"
                            [leaf "station_identifier" "BARE"]])
  else Raise (ExternalError "XMLSyntaxError").

Definition listing_env : @Env domain :=
  {| py_str := str;
     iteritems := map_to_list;
     iteritems_perm := λ d, reflexivity (map_to_list d);
     urlencode := encode;
     urlopen := listing_server;
     fromstring := listing_parse;
     numeric := reading;
     str_sum := glue;
     str_add := λ s e, Return (s +:+ text e);
     lxml_xpath := λ _ _, Raise (ExternalError "XPathEvalError");
     num_add := λ x y, (x.1 + y.1, x.2 + y.2)%Z;
     num_mul := λ x y, (x.1 * y.1 - x.2 * y.2, x.1 * y.2 + x.2 * y.1)%Z;
     imag_unit := (0, 1)%Z;
     BAND_CODE := {[ "E" := 80%Z; "B" := 10%Z; "L" := 1%Z ]};
     UTCDateTime := parse_time;
     two := 2000%Z;
     fdiv := Z.div;
     time_sub := Z.sub;
     time_add := Z.add;
     trim := clip;
     loads := unpickle |}.

Definition objectify : Objectify := {| str_element := text |}.

End Fixture.

(** * Properties *)

(** ** Query encoding *)

Section encoding.
Context `{Env}.

Lemma add_param_writes params kv :
  Client.add_param params kv = foldl write params (writes kv).
Proof.
  destruct kv as [k v]. unfold Client.add_param, writes. simpl.
  destruct v as [| b | n | s | l | l | t]; simpl;
    try destruct l as [|lo [|hi [|? ?]]]; simpl;
    repeat (case_match; simplify_eq/=); done.
Qed.

Lemma query_params_writes kwargs :
  Client.query_params kwargs = foldl write ∅ (iteritems kwargs ≫= writes).
Proof.
  unfold Client.query_params. generalize (∅ : gmap string string).
  induction (iteritems kwargs) as [|kv l IH]; intros acc; [done|].
  simpl. rewrite foldl_app, <- add_param_writes. apply IH.
Qed.

Lemma foldl_write_absent ws acc n :
  (∀ s, (n, s) ∉ ws) → foldl write acc ws !! n = acc !! n.
Proof.
  revert acc. induction ws as [|[n' s'] ws IH]; intros acc Hno; [done|].
  simpl. rewrite IH.
  - unfold write. simpl. apply lookup_insert_ne. intros ->.
    apply (Hno s'). left.
  - intros s Hin. apply (Hno s). by right.
Qed.

Lemma foldl_write_present ws acc n s :
  (n, s) ∈ ws → (∀ s', (n, s') ∈ ws → s' = s) → foldl write acc ws !! n = Some s.
Proof.
  revert acc. induction ws as [|[n' s'] ws IH]; intros acc Hin Huniq.
  - by apply elem_of_nil in Hin.
  - simpl. destruct (decide ((n, s) ∈ ws)) as [Hws|Hws].
    + apply IH; [done|]. intros s'' ?. apply Huniq. by right.
    + apply elem_of_cons in Hin as [[= <- <-]|?]; [|done].
      rewrite foldl_write_absent.
      * unfold write. simpl. apply lookup_insert_eq.
      * intros s'' Hs''. assert (s'' = s) as -> by (apply Huniq; by right). done.
Qed.

Lemma foldl_write_origin ws acc n s :
  foldl write acc ws !! n = Some s → (n, s) ∈ ws ∨ acc !! n = Some s.
Proof.
  revert acc. induction ws as [|[n' s'] ws IH]; intros acc Hl; [by right|].
  simpl in Hl. apply IH in Hl as [?|Hl]; [left; by right|].
  unfold write in Hl. simpl in Hl.
  destruct (decide (n' = n)) as [->|Hne].
  - rewrite lookup_insert_eq in Hl. injection Hl as ->. left. left.
  - rewrite lookup_insert_ne in Hl by done. by right.
Qed.

Lemma elem_of_iteritems kwargs k v :
  (k, v) ∈ iteritems kwargs ↔ kwargs !! k = Some v.
Proof. rewrite iteritems_perm. apply elem_of_map_to_list. Qed.

Lemma written_iff kwargs n s :
  (n, s) ∈ iteritems kwargs ≫= writes ↔
  ∃ k v, kwargs !! k = Some v ∧ (n, s) ∈ writes (k, v).
Proof.
  rewrite list_elem_of_bind. split.
  - intros [[k v] [Hw Hin]]. exists k, v. by rewrite <- elem_of_iteritems.
  - intros (k & v & Hk & Hw). exists (k, v). by rewrite elem_of_iteritems.
Qed.

Lemma clash_free_spec kwargs k v lo hi :
  clash_free kwargs = true → kwargs !! k = Some v → range_bounds v = Some (lo, hi) →
  kwargs !! ("min_" +:+ k) = None ∧ kwargs !! ("max_" +:+ k) = None.
Proof.
  unfold clash_free. intros Hcf%Is_true_true Hk Hr.
  rewrite forallb_True, Forall_forall in Hcf.
  specialize (Hcf (k, v)). simpl in Hcf. rewrite Hr in Hcf.
  apply elem_of_map_to_list in Hk. specialize (Hcf Hk).
  apply andb_True in Hcf as [H1 H2].
  by apply bool_decide_unpack in H1, H2.
Qed.

Lemma writes_cases k v n s :
  (n, s) ∈ writes (k, v) →
  truthy v = true ∧
  ((range_bounds v = None ∧ n = k ∧ s = py_str v) ∨
   (∃ lo hi, range_bounds v = Some (lo, hi) ∧
      ((n = "min_" +:+ k ∧ s = py_str lo) ∨ (n = "max_" +:+ k ∧ s = py_str hi)))).
Proof.
  unfold writes. simpl. destruct (truthy v); [|by intros ?%elem_of_nil].
  intros Hw. split; [done|].
  destruct (range_bounds v) as [[lo hi]|].
  - right. exists lo, hi. split; [done|].
    apply elem_of_cons in Hw as [[= -> ->]|Hw]; [by left|].
    apply list_elem_of_singleton in Hw as [= -> ->]. by right.
  - left. apply list_elem_of_singleton in Hw as [= -> ->]. done.
Qed.

(** Under [clash_free] a name is written by one argument only. *)
Lemma writer_unique kwargs n s s' k v k' v' :
  clash_free kwargs = true →
  kwargs !! k = Some v → (n, s) ∈ writes (k, v) →
  kwargs !! k' = Some v' → (n, s') ∈ writes (k', v') →
  s = s'.
Proof.
  intros Hcf Hk Hw Hk' Hw'.
  apply writes_cases in Hw as [_ [(Hr & -> & ->)|(lo & hi & Hr & Hw)]];
    apply writes_cases in Hw' as [_ [(Hr' & Hn & ->)|(lo' & hi' & Hr' & Hw')]].
  - congruence.
  - destruct (clash_free_spec _ _ _ _ _ Hcf Hk' Hr').
    destruct Hw' as [[-> _]|[-> _]]; congruence.
  - destruct (clash_free_spec _ _ _ _ _ Hcf Hk Hr).
    destruct Hw as [[-> _]|[-> _]]; congruence.
  - destruct Hw as [[-> ->]|[-> ->]], Hw' as [[Hn ->]|[Hn ->]];
      cbn in Hn; simplify_eq; congruence.
Qed.

Lemma query_params_written kwargs k v n s :
  clash_free kwargs = true → kwargs !! k = Some v → (n, s) ∈ writes (k, v) →
  Client.query_params kwargs !! n = Some s.
Proof.
  intros Hcf Hk Hw. rewrite query_params_writes.
  apply foldl_write_present.
  - apply written_iff. eauto.
  - intros s' (k' & v' & Hk' & Hw')%written_iff.
    exact (writer_unique kwargs n s' s k' v' k v Hcf Hk' Hw' Hk Hw).
Qed.

Lemma query_params_unwritten kwargs n :
  (∀ k v s, kwargs !! k = Some v → (n, s) ∉ writes (k, v)) →
  Client.query_params kwargs !! n = None.
Proof.
  intros Hno. rewrite query_params_writes, foldl_write_absent; [done|].
  intros s (k & v & Hk & Hw)%written_iff. by eapply Hno.
Qed.

(** An argument whose name is not that of a generated bound is encoded
    under its own name whatever the other arguments are. *)
Lemma query_params_plain kwargs n v :
  kwargs !! n = Some v → truthy v = true → range_bounds v = None →
  (∀ k, n ≠ "min_" +:+ k ∧ n ≠ "max_" +:+ k) →
  Client.query_params kwargs !! n = Some (py_str v).
Proof.
  intros Hn Ht Hr Hfresh. rewrite query_params_writes.
  apply foldl_write_present.
  - apply written_iff. exists n, v. split; [done|].
    unfold writes. simpl. rewrite Ht, Hr. left.
  - intros s' (k' & v' & Hk' & Hw')%written_iff.
    apply writes_cases in Hw' as [_ [(_ & -> & ->)|(lo & hi & _ & Hw')]].
    + congruence.
    + destruct (Hfresh k'). destruct Hw' as [[? _]|[? _]]; done.
Qed.

Lemma encodes_all_clash_free kwargs :
  clash_free kwargs = true → encodes_all kwargs.
Proof.
  intros Hcf k v Hk. unfold encoded_as.
  destruct (truthy v) eqn:Ht; [destruct (range_bounds v) as [[lo hi]|] eqn:Hr|].
  - split; [|split].
    + apply (query_params_written kwargs k v); [done..|].
      unfold writes. simpl. rewrite Ht, Hr. left.
    + apply (query_params_written kwargs k v); [done..|].
      unfold writes. simpl. rewrite Ht, Hr. right. left.
    + apply query_params_unwritten. intros k' v' s Hk' Hw.
      apply writes_cases in Hw as [_ [(Hr' & -> & _)|(lo' & hi' & Hr' & Hw)]].
      * congruence.
      * destruct (clash_free_spec _ _ _ _ _ Hcf Hk' Hr').
        destruct Hw as [[-> _]|[-> _]]; congruence.
  - apply (query_params_written kwargs k v); [done..|].
    unfold writes. simpl. rewrite Ht, Hr. left.
  - apply query_params_unwritten. intros k' v' s Hk' Hw.
    apply writes_cases in Hw as [Ht' [(Hr' & -> & _)|(lo' & hi' & Hr' & Hw)]].
    + congruence.
    + destruct (clash_free_spec _ _ _ _ _ Hcf Hk' Hr').
      destruct Hw as [[-> _]|[-> _]]; congruence.
Qed.

Lemma query_params_origin kwargs n s :
  Client.query_params kwargs !! n = Some s →
  ∃ k v, kwargs !! k = Some v ∧ (n, s) ∈ writes (k, v).
Proof.
  rewrite query_params_writes. intros [Hw|Hw]%foldl_write_origin.
  - by apply written_iff.
  - by rewrite lookup_empty in Hw.
Qed.

End encoding.

(** C6, as the code has it: when no argument is called like a bound
    generated for a range argument, a falsy argument leaves no parameter, a
    two element tuple or list [(lo, hi)] under [k] becomes [min_k=str(lo)] and
    [max_k=str(hi)] without a parameter [k], any other argument becomes
    [k=str(value)], and the query holds no further parameter. *)
Theorem fetch_encodes_clash_free_kwargs `{Env} (kwargs : gmap string value) :
  clash_free kwargs = true →
  encodes_all kwargs ∧
  ∀ n s, Client.query_params kwargs !! n = Some s →
    ∃ k v, kwargs !! k = Some v ∧ truthy v = true ∧
      ((range_bounds v = None ∧ n = k ∧ s = py_str v) ∨
       (∃ lo hi, range_bounds v = Some (lo, hi) ∧
          ((n = "min_" +:+ k ∧ s = py_str lo) ∨ (n = "max_" +:+ k ∧ s = py_str hi)))).
Proof.
  intros Hcf. split; [by apply encodes_all_clash_free|].
  intros n s (k & v & Hk & Hw)%query_params_origin.
  exists k, v. split; [done|]. by apply writes_cases.
Qed.

Section fixture_encoding.
#[local] Existing Instances Fixture.domain Fixture.env.

Lemma fetch_encodes_clash_free_kwargs_witness :
  clash_free (<["start" := VTuple [VStr "2009-01-01"; VStr "2009-01-02"]]>
                (<["network_id" := VStr "BW"]> (<["apply_filter" := VBool false]> ∅)))
  = true ∧
  encoded_as
    (Client.query_params
       (<["start" := VTuple [VStr "2009-01-01"; VStr "2009-01-02"]]>
          (<["network_id" := VStr "BW"]> (<["apply_filter" := VBool false]> ∅))))
    "start" (VTuple [VStr "2009-01-01"; VStr "2009-01-02"]).
Proof.
  assert (clash_free (<["start" := VTuple [VStr "2009-01-01"; VStr "2009-01-02"]]>
                        (<["network_id" := VStr "BW"]>
                           (<["apply_filter" := VBool false]> ∅))) = true) as Hcf
    by (vm_compute; reflexivity).
  split; [exact Hcf|].
  exact (proj1 (fetch_encodes_clash_free_kwargs _ Hcf) "start" _ eq_refl).
Defined.

(** C6 as stated fails when a range argument [x] meets an argument called
    [min_x]: both write [params['min_x']], and whichever the loop visits last
    wins. *)
Lemma fetch_encoding_clash_counterexample :
  foldl Client.add_param ∅ [("x", VTuple [VInt 1; VInt 2]); ("min_x", VInt 5)]
    !! "min_x" = Some "5" ∧
  foldl Client.add_param ∅ [("min_x", VInt 5); ("x", VTuple [VInt 1; VInt 2])]
    !! "min_x" = Some "1" ∧
  ¬ encodes_all (<["x" := VTuple [VInt 1; VInt 2]]> (<["min_x" := VInt 5]> ∅)).
Proof.
  split; [by vm_compute|]. split; [by vm_compute|].
  intros Hall.
  pose proof (Hall "x" (VTuple [VInt 1; VInt 2]) eq_refl) as [H1 _].
  pose proof (Hall "min_x" (VInt 5) eq_refl) as H5.
  unfold encoded_as in H5. simpl in H5.
  change ("min_" +:+ "x") with "min_x" in H1.
  rewrite H1 in H5. vm_compute in H5. discriminate H5.
Qed.

End fixture_encoding.

(** ** Node selection *)

Lemma append_assoc (a b c : string) : (a +:+ b) +:+ c = a +:+ b +:+ c.
Proof.
  induction a as [|x a IH]; [done|].
  change (String x ((a +:+ b) +:+ c) = String x (a +:+ b +:+ c)). by rewrite IH.
Qed.

(** The queries print to the expressions that [getPAZ] concatenates. *)
Lemma show_paz_query c l :
  show_query (paz_query c l) =
  "channel_identifier[channel_identifier='" +:+ c +:+
  "' and location_identifier='" +:+ l +:+
  "']/following-sibling::response_poles_and_zeros".
Proof.
  unfold show_query, show_predicate, show_comparison. cbn.
  repeat (rewrite !append_assoc; cbn). reflexivity.
Qed.

Lemma show_gain_query c l stage :
  show_query (gain_query c l stage) =
  "channel_identifier[channel_identifier='" +:+ c +:+
  "' and location_identifier='" +:+ l +:+
  "']/following-sibling::channel_sensitivity_" +:+
  "gain[stage_sequence_number='" +:+ stage +:+ "']".
Proof.
  unfold show_query, show_predicate, show_comparison. cbn.
  repeat (rewrite !append_assoc; cbn). reflexivity.
Qed.

Section xpath.
Context `{Env}.

Lemma select_siblings_from (anchor target : element → bool) pre l :
  concat (imap (λ j e, if target e && existsb anchor (pre ++ take j l)
                       then [e] else []) l)
  = if existsb anchor pre then filter (λ e, target e = true) l
    else from_option (filter (λ e, target e = true)) [] (after_first anchor l).
Proof.
  revert pre. induction l as [|x l IH]; intros pre.
  - simpl. by destruct (existsb anchor pre).
  - rewrite imap_cons. simpl concat. rewrite app_nil_r.
    rewrite (imap_ext _ (λ j e, if target e && existsb anchor ((pre ++ [x]) ++ take j l)
                                then [e] else [])).
    2:{ intros j e _. simpl. by rewrite <- (assoc_L (++)). }
    rewrite IH, existsb_app. simpl. rewrite orb_false_r.
    destruct (existsb anchor pre); simpl.
    + rewrite andb_true_r. destruct (target x) eqn:Hx.
      * by rewrite filter_cons_True.
      * rewrite filter_cons_False; [done|congruence].
    + rewrite andb_false_r. by destruct (anchor x).
Qed.

Lemma head_filter_find (target : element → bool) l :
  head (filter (λ e, target e = true) l) = find target l.
Proof.
  induction l as [|x l IH]; [done|]. simpl. destruct (target x) eqn:Hx.
  - by rewrite filter_cons_True.
  - rewrite filter_cons_False; [done|congruence].
Qed.

Lemma find_ext (f g : element → bool) l : (∀ e, f e = g e) → find f l = find g l.
Proof. intros Hfg. induction l as [|x l IH]; [done|]. simpl. by rewrite Hfg, IH. Qed.

(** The first node of a well quoted query is the nearest following sibling
    of the first anchor. *)
Lemma xpath_first q base :
  well_quoted q = true →
  xpath base q ≫= first_item =
  match nearest_following (node_test (anchor_name q) (anchor_tests q))
                          (node_test (target_name q) (target_tests q))
                          (children base) with
  | Some e => Return e
  | None => Raise IndexError
  end.
Proof.
  intros Hq. unfold xpath. rewrite Hq. simpl.
  unfold select_siblings, nearest_following.
  pose proof (select_siblings_from
                (node_test (anchor_name q) (anchor_tests q))
                (node_test (target_name q) (target_tests q)) [] (children base)) as Hs.
  simpl in Hs. rewrite Hs.
  destruct (after_first _ (children base)) as [r|]; simpl; [|done].
  rewrite <- head_filter_find. by destruct (filter _ r).
Qed.

Lemma well_quoted_paz c l :
  quotable c = true → quotable l = true → well_quoted (paz_query c l) = true.
Proof. intros Hc Hl. unfold well_quoted. simpl. by rewrite Hc, Hl. Qed.

Lemma well_quoted_gain c l stage :
  quotable c = true → quotable l = true → quotable stage = true →
  well_quoted (gain_query c l stage) = true.
Proof. intros Hc Hl Hs. unfold well_quoted. simpl. by rewrite Hc, Hl, Hs. Qed.

Lemma nearest_paz c l kids :
  nearest_following (node_test "channel_identifier" (channel_tests c l))
                    (node_test "response_poles_and_zeros" []) kids
  = nearest_following (is_channel c l) is_paz kids.
Proof.
  unfold nearest_following, is_channel. destruct (after_first _ kids); [|done].
  simpl. apply find_ext. intros e. unfold node_test, is_paz. simpl.
  apply andb_true_r.
Qed.

Lemma select_nodes_filtered base c l :
  _StationMapperClient.filtered c l = true → quotable c = true → quotable l = true →
  _StationMapperClient.select_nodes base c l =
  match nearest_following (is_channel c l) is_paz (children base),
        nearest_following (is_channel c l) (is_gain_stage "0") (children base),
        nearest_following (is_channel c l) (is_gain_stage "1") (children base) with
  | Some p, Some s, Some g => Return (p, s, g)
  | _, _, _ => Raise IndexError
  end.
Proof.
  intros Hf Hc Hl. unfold _StationMapperClient.select_nodes. rewrite Hf.
  rewrite !xpath_first by (by apply well_quoted_paz || by apply well_quoted_gain).
  simpl anchor_name. simpl anchor_tests. simpl target_name. simpl target_tests.
  rewrite nearest_paz. fold (is_channel c l). fold (is_gain_stage "0").
  fold (is_gain_stage "1").
  destruct (nearest_following _ is_paz _); [|done].
  destruct (nearest_following _ (is_gain_stage "0") _); [|done].
  by destruct (nearest_following _ (is_gain_stage "1") _).
Qed.

Lemma select_nodes_unfiltered base p ps g gs :
  named_children base "response_poles_and_zeros" = p :: ps →
  named_children base "channel_sensitivity_gain" = g :: gs →
  _StationMapperClient.select_nodes base "" "" = Return (p, List.last (g :: gs) g, g).
Proof.
  intros Hp Hg. unfold _StationMapperClient.select_nodes. simpl.
  unfold getattr_all, getattr_last, getattr. rewrite Hp, Hg. done.
Qed.

End xpath.

(** ** [getPAZ] as a whole *)

Section getPAZ.
Context `{Env}.

Lemma unset_wildcards_spec c l :
  _StationMapperClient.unset_wildcards c l = (unset_if_wildcard c, unset_if_wildcard l).
Proof.
  unfold _StationMapperClient.unset_wildcards, unset_if_wildcard. simpl.
  by destruct (str_in "*" c), (str_in "*" l); simpl; try done;
    destruct (str_in "?" c), (str_in "?" l).
Qed.

Lemma unset_if_wildcard_clean s :
  str_in "*" (unset_if_wildcard s) = false ∧ str_in "?" (unset_if_wildcard s) = false.
Proof.
  unfold unset_if_wildcard.
  destruct (str_in "*" s) eqn:H1, (str_in "?" s) eqn:H2; simpl; by rewrite ?H1, ?H2.
Qed.

Lemma unset_if_wildcard_idemp s :
  unset_if_wildcard (unset_if_wildcard s) = unset_if_wildcard s.
Proof.
  destruct (unset_if_wildcard_clean s) as [H1 H2].
  unfold unset_if_wildcard at 1. by rewrite H1, H2.
Qed.

Lemma getPAZ_unfold self net sta dt loc chan flag log :
  _StationMapperClient.getPAZ self net sta dt loc chan flag log =
  match _StationMapperClient.getList self []
          (_StationMapperClient.list_kwargs net sta dt) log with
  | (Return [], log1) => (Return ∅, log1)
  | (Return (row :: rows), log1) =>
      match _StationMapperClient.fetch_header self (row :: rows) log1 with
      | (Return base, log2) =>
          (_StationMapperClient.paz_of_header base (unset_if_wildcard chan)
             (unset_if_wildcard loc) flag, log2)
      | (Raise e, log2) => (Raise e, log2)
      end
  | (Raise e, log1) => (Raise e, log1)
  end.
Proof.
  unfold _StationMapperClient.getPAZ. unfold mbind at 1, M_bind at 1.
  destruct (_StationMapperClient.getList _ _ _ _) as [[[|row rows]|e] log1]; [done| |done].
  rewrite unset_wildcards_spec. unfold mbind, M_bind.
  by destruct (_StationMapperClient.fetch_header _ _ _) as [[base|e] log2].
Qed.

Lemma getPAZ_resolved self net sta dt loc chan flag log base log' :
  resolves self net sta dt log base log' →
  _StationMapperClient.getPAZ self net sta dt loc chan flag log =
  (_StationMapperClient.paz_of_header base (unset_if_wildcard chan)
     (unset_if_wildcard loc) flag, log').
Proof.
  intros (row & rows & log1 & Hlist & Hhead).
  by rewrite getPAZ_unfold, Hlist, Hhead.
Qed.

Lemma build_paz_nonempty p s g flag d :
  _StationMapperClient.build_paz p s g flag = Return d → d ≠ ∅.
Proof.
  unfold _StationMapperClient.build_paz, mbind, outcome_bind.
  intros Hd. repeat (case_match; simplify_eq); apply insert_non_empty.
Qed.

Lemma paz_of_header_nonempty base c l flag d :
  _StationMapperClient.paz_of_header base c l flag = Return d → d ≠ ∅.
Proof.
  unfold _StationMapperClient.paz_of_header, mbind, outcome_bind.
  destruct (_StationMapperClient.select_nodes base c l) as [[[p s] g]|e]; [|done].
  apply build_paz_nonempty.
Qed.

Lemma getPAZ_filtered self net sta dt loc chan flag log base log' :
  resolves self net sta dt log base log' →
  _StationMapperClient.filtered (unset_if_wildcard chan) (unset_if_wildcard loc) = true →
  quotable (unset_if_wildcard chan) = true →
  quotable (unset_if_wildcard loc) = true →
  _StationMapperClient.getPAZ self net sta dt loc chan flag log =
  (match nearest_following (is_channel (unset_if_wildcard chan) (unset_if_wildcard loc))
           is_paz (children base),
         nearest_following (is_channel (unset_if_wildcard chan) (unset_if_wildcard loc))
           (is_gain_stage "0") (children base),
         nearest_following (is_channel (unset_if_wildcard chan) (unset_if_wildcard loc))
           (is_gain_stage "1") (children base) with
   | Some p, Some s, Some g => _StationMapperClient.build_paz p s g flag
   | _, _, _ => Raise IndexError
   end, log').
Proof.
  intros Hres Hf Hc Hl. rewrite (getPAZ_resolved _ _ _ _ _ _ _ _ _ _ Hres).
  unfold _StationMapperClient.paz_of_header.
  rewrite select_nodes_filtered by done.
  destruct (nearest_following _ is_paz _); [|done].
  destruct (nearest_following _ (is_gain_stage "0") _); [|done].
  by destruct (nearest_following _ (is_gain_stage "1") _).
Qed.

End getPAZ.

Section PAZ_properties.
Context `{Env}.

Lemma complex_list_zip reals imags res ims :
  mapM numeric reals = Some res → mapM numeric imags = Some ims →
  _StationMapperClient.complex_list (zip reals imags)
    = Return (INumber <$> zip_with complex_of res ims).
Proof.
  rewrite !mapM_Some. intros Hre. revert imags ims.
  induction Hre as [|x r reals res Hx _ IH]; intros imags ims Him; [done|].
  destruct Him as [|y i imags ims Hy Him]; [done|].
  simpl. unfold _StationMapperClient.to_complex. simpl. rewrite Hx, Hy. simpl.
  by rewrite (IH _ _ Him).
Qed.

(** C1: without a channel and a location filter, [getPAZ] takes the first
    poles-and-zeros node, the last sensitivity-gain node and the first
    sensitivity-gain node of the station control header. *)
Theorem getPAZ_unfiltered_takes_first_last_first
    self net sta dt loc chan flag log base log' p ps g gs :
  resolves self net sta dt log base log' →
  unset_if_wildcard chan = "" → unset_if_wildcard loc = "" →
  named_children base "response_poles_and_zeros" = p :: ps →
  named_children base "channel_sensitivity_gain" = g :: gs →
  _StationMapperClient.select_nodes base (unset_if_wildcard chan) (unset_if_wildcard loc)
    = Return (p, List.last (g :: gs) g, g) ∧
  _StationMapperClient.getPAZ self net sta dt loc chan flag log
    = (_StationMapperClient.build_paz p (List.last (g :: gs) g) g flag, log').
Proof.
  intros Hres Hc Hl Hp Hg.
  rewrite (getPAZ_resolved _ _ _ _ _ _ _ _ _ _ Hres).
  unfold _StationMapperClient.paz_of_header. rewrite Hc, Hl.
  by rewrite (select_nodes_unfiltered base p ps g gs Hp Hg).
Qed.

(** C2: with a channel or location filter, the three nodes are the nearest
    following siblings of the first [channel_identifier] node whose channel
    and location equal the filters: a [response_poles_and_zeros] node, a
    [channel_sensitivity_gain] node of stage 0 and one of stage 1; when one of
    them is missing the call raises [IndexError].  The filters are such as an
    XPath literal between apostrophes can hold. *)
Theorem getPAZ_filtered_takes_nearest_following_siblings
    self net sta dt loc chan flag log base log' :
  resolves self net sta dt log base log' →
  _StationMapperClient.filtered (unset_if_wildcard chan) (unset_if_wildcard loc) = true →
  quotable (unset_if_wildcard chan) = true →
  quotable (unset_if_wildcard loc) = true →
  _StationMapperClient.getPAZ self net sta dt loc chan flag log =
  (match nearest_following (is_channel (unset_if_wildcard chan) (unset_if_wildcard loc))
           is_paz (children base),
         nearest_following (is_channel (unset_if_wildcard chan) (unset_if_wildcard loc))
           (is_gain_stage "0") (children base),
         nearest_following (is_channel (unset_if_wildcard chan) (unset_if_wildcard loc))
           (is_gain_stage "1") (children base) with
   | Some p, Some s, Some g => _StationMapperClient.build_paz p s g flag
   | _, _, _ => Raise IndexError
   end, log').
Proof. apply getPAZ_filtered. Qed.

(** C10: in the filtered branch the stage 1 node is looked up whatever the
    flag says: when the poles-and-zeros node and the stage 0 node are found
    and no stage 1 node follows, [getPAZ] raises [IndexError], also with
    [seismometer_gain=False].  The filters are such as an XPath literal
    between apostrophes can hold. *)
Theorem getPAZ_filtered_needs_stage_1_node
    self net sta dt loc chan flag log base log' p s :
  resolves self net sta dt log base log' →
  _StationMapperClient.filtered (unset_if_wildcard chan) (unset_if_wildcard loc) = true →
  quotable (unset_if_wildcard chan) = true →
  quotable (unset_if_wildcard loc) = true →
  nearest_following (is_channel (unset_if_wildcard chan) (unset_if_wildcard loc))
    is_paz (children base) = Some p →
  nearest_following (is_channel (unset_if_wildcard chan) (unset_if_wildcard loc))
    (is_gain_stage "0") (children base) = Some s →
  nearest_following (is_channel (unset_if_wildcard chan) (unset_if_wildcard loc))
    (is_gain_stage "1") (children base) = None →
  _StationMapperClient.getPAZ self net sta dt loc chan flag log = (Raise IndexError, log').
Proof.
  intros Hres Hf Hc Hl Hp Hs Hg.
  by rewrite (getPAZ_filtered _ _ _ _ _ _ _ _ _ _ Hres Hf Hc Hl), Hp, Hs, Hg.
Qed.

(** C4: when the real parts and the imaginary parts of the poles are numbers
    and as many, and likewise those of the zeros, [getPAZ] returns under
    [poles] and under [zeros] the parts paired by position: entry [k] is
    [real[k] + imaginary[k] * 1j].  The nodes are those [getPAZ] selects; the
    seismometer gain node needs its [sensitivity_gain] when the flag is set. *)
Theorem getPAZ_pairs_parts_by_position
    self net sta dt loc chan flag log base log'
    paz_node sens_node gain_node cp cz preals pimags zreals zimags
    pre pim zre zim a0 sens :
  resolves self net sta dt log base log' →
  _StationMapperClient.select_nodes base (unset_if_wildcard chan) (unset_if_wildcard loc)
    = Return (paz_node, sens_node, gain_node) →
  getattr paz_node "complex_pole" = Return cp →
  getattr_all cp "real_pole" = Return preals →
  getattr_all cp "imaginary_pole" = Return pimags →
  mapM numeric preals = Some pre → mapM numeric pimags = Some pim →
  length pre = length pim →
  getattr paz_node "complex_zero" = Return cz →
  getattr_all cz "real_zero" = Return zreals →
  getattr_all cz "imaginary_zero" = Return zimags →
  mapM numeric zreals = Some zre → mapM numeric zimags = Some zim →
  length zre = length zim →
  getattr paz_node "A0_normalization_factor" = Return a0 →
  getattr sens_node "sensitivity_gain" = Return sens →
  (flag = true → named_children gain_node "sensitivity_gain" ≠ []) →
  ∃ d poles zeros,
    _StationMapperClient.getPAZ self net sta dt loc chan flag log = (Return d, log') ∧
    d !! "poles" = Some (PList (INumber <$> poles)) ∧
    d !! "zeros" = Some (PList (INumber <$> zeros)) ∧
    poles = zip_with complex_of pre pim ∧ zeros = zip_with complex_of zre zim ∧
    length poles = length pre ∧ length zeros = length zre ∧
    (∀ k re im, pre !! k = Some re → pim !! k = Some im →
                poles !! k = Some (complex_of re im)) ∧
    (∀ k re im, zre !! k = Some re → zim !! k = Some im →
                zeros !! k = Some (complex_of re im)).
Proof.
  intros Hres Hsel Hcp Hpr Hpi Hpre Hpim Hplen Hcz Hzr Hzi Hzre Hzim Hzlen Ha0 Hsens Hsg.
  assert (∀ (xs ys : list number) k re im,
            xs !! k = Some re → ys !! k = Some im →
            zip_with complex_of xs ys !! k = Some (complex_of re im)) as Hpos.
  { intros xs ys k re im Hx Hy. by rewrite lookup_zip_with, Hx, Hy. }
  rewrite (getPAZ_resolved _ _ _ _ _ _ _ _ _ _ Hres).
  unfold _StationMapperClient.paz_of_header. rewrite Hsel. simpl.
  unfold _StationMapperClient.build_paz.
  rewrite Hcp. simpl. rewrite Hpr, Hpi. simpl.
  rewrite (complex_list_zip _ _ _ _ Hpre Hpim). simpl.
  rewrite Hcz. simpl. rewrite Hzr, Hzi. simpl.
  rewrite (complex_list_zip _ _ _ _ Hzre Hzim). simpl.
  rewrite Ha0. simpl. rewrite Hsens. simpl.
  assert (flag = true → ∃ sg, getattr gain_node "sensitivity_gain" = Return sg) as Hsg'.
  { intros Hflag. unfold getattr.
    destruct (named_children gain_node "sensitivity_gain") as [|sg ?] eqn:Hn;
      [by destruct (Hsg Hflag)|by exists sg]. }
  destruct flag; [destruct (Hsg' eq_refl) as [sg ->]; simpl|].
  all: eexists _, _, _; split; [reflexivity|];
    split; [by simplify_map_eq|]; split; [by simplify_map_eq|];
    split; [done|]; split; [done|];
    split; [by apply length_zip_with_l_eq|]; split; [by apply length_zip_with_l_eq|];
    split; apply Hpos.
Qed.

(** C7: [getPAZ] returns the empty dictionary when the station list is
    empty, and in no other case. *)
Theorem getPAZ_empty_iff_no_station self net sta dt loc chan flag log log' :
  _StationMapperClient.getPAZ self net sta dt loc chan flag log = (Return ∅, log') ↔
  _StationMapperClient.getList self []
    (_StationMapperClient.list_kwargs net sta dt) log = (Return [], log').
Proof.
  rewrite getPAZ_unfold.
  destruct (_StationMapperClient.getList _ _ _ _) as [[[|row rows]|e] log1].
  - split; congruence.
  - split; [|done].
    destruct (_StationMapperClient.fetch_header _ _ _) as [[base|e] log2]; [|done].
    intros [= Hd _]. by apply paz_of_header_nonempty in Hd.
  - split; done.
Qed.

(** C8: a channel filter holding [*] or [?] is replaced by the empty string,
    and so is a location filter, each on its own; the search is run with the
    replaced filters, which hold no wild card. *)
Theorem getPAZ_unsets_wildcard_filters self net sta dt loc chan flag log :
  _StationMapperClient.unset_wildcards chan loc
    = (unset_if_wildcard chan, unset_if_wildcard loc) ∧
  str_in "*" (unset_if_wildcard chan) = false ∧
  str_in "?" (unset_if_wildcard chan) = false ∧
  str_in "*" (unset_if_wildcard loc) = false ∧
  str_in "?" (unset_if_wildcard loc) = false ∧
  _StationMapperClient.getPAZ self net sta dt loc chan flag log =
  _StationMapperClient.getPAZ self net sta dt
    (unset_if_wildcard loc) (unset_if_wildcard chan) flag log ∧
  ∀ base log',
    resolves self net sta dt log base log' →
    _StationMapperClient.getPAZ self net sta dt loc chan flag log =
    (_StationMapperClient.paz_of_header base (unset_if_wildcard chan)
       (unset_if_wildcard loc) flag, log').
Proof.
  split; [apply unset_wildcards_spec|].
  destruct (unset_if_wildcard_clean chan) as [? ?].
  destruct (unset_if_wildcard_clean loc) as [? ?].
  repeat (split; [done|]). split.
  - by rewrite !getPAZ_unfold, !unset_if_wildcard_idemp.
  - intros base log'. apply getPAZ_resolved.
Qed.

End PAZ_properties.

Section fixture_PAZ.
#[local] Existing Instances Fixture.domain Fixture.env.
Import Fixture.

Lemma manz_resolves :
  resolves station (VStr "BW") (VStr "MANZ") (VInt 20090707) [] manz_header
    ["http://localhost:8080/seismology/station/getList?station_id=MANZ&network_id=BW&datetime=20090707";
     "http://localhost:8080/xml/seismology/station/manz.xml?"].
Proof.
  exists (__dict__ (node "item" [leaf "resource_name" "manz.xml"])), [],
    ["http://localhost:8080/seismology/station/getList?station_id=MANZ&network_id=BW&datetime=20090707"].
  split; vm_compute; reflexivity.
Qed.

Lemma rjob_resolves :
  resolves station (VStr "BW") (VStr "RJOB") (VInt 20090707) [] rjob_header
    ["http://localhost:8080/seismology/station/getList?station_id=RJOB&network_id=BW&datetime=20090707";
     "http://localhost:8080/xml/seismology/station/rjob.xml?"].
Proof.
  exists (__dict__ (node "item" [leaf "resource_name" "rjob.xml"])), [],
    ["http://localhost:8080/seismology/station/getList?station_id=RJOB&network_id=BW&datetime=20090707"].
  split; vm_compute; reflexivity.
Qed.

Lemma getPAZ_unfiltered_takes_first_last_first_witness :
  _StationMapperClient.select_nodes manz_header "" ""
    = Return (response "600" ["1"; "2"] ["3"; "4"], gain "0" "2801", gain "1" "400") ∧
  (_StationMapperClient.getPAZ station (VStr "BW") (VStr "MANZ") (VInt 20090707)
     "*" "EH?" false []).1
    = _StationMapperClient.build_paz (response "600" ["1"; "2"] ["3"; "4"])
        (gain "0" "2801") (gain "1" "400") false.
Proof.
  destruct (getPAZ_unfiltered_takes_first_last_first
              station (VStr "BW") (VStr "MANZ") (VInt 20090707) "*" "EH?" false [] _ _
              (response "600" ["1"; "2"] ["3"; "4"])
              [response "601" ["-5"] ["6"]]
              (gain "1" "400") [gain "2" "7"; gain "0" "2800"; gain "1" "401"; gain "0" "2801"]
              manz_resolves eq_refl eq_refl eq_refl eq_refl) as [Hsel Hpaz].
  split; [exact Hsel|]. by rewrite Hpaz.
Defined.

Lemma getPAZ_filtered_takes_nearest_following_siblings_witness :
  _StationMapperClient.getPAZ station (VStr "BW") (VStr "MANZ") (VInt 20090707)
    "" "EHN" true []
  = (_StationMapperClient.build_paz (response "601" ["-5"] ["6"])
       (gain "0" "2801") (gain "1" "401") true,
     ["http://localhost:8080/seismology/station/getList?station_id=MANZ&network_id=BW&datetime=20090707";
      "http://localhost:8080/xml/seismology/station/manz.xml?"]).
Proof.
  exact (getPAZ_filtered_takes_nearest_following_siblings
           station (VStr "BW") (VStr "MANZ") (VInt 20090707) "" "EHN" true [] _ _
           manz_resolves eq_refl eq_refl eq_refl).
Defined.

Lemma getPAZ_filtered_needs_stage_1_node_witness :
  _StationMapperClient.getPAZ station (VStr "BW") (VStr "RJOB") (VInt 20090707)
    "" "EHZ" false []
  = (Raise IndexError,
     ["http://localhost:8080/seismology/station/getList?station_id=RJOB&network_id=BW&datetime=20090707";
      "http://localhost:8080/xml/seismology/station/rjob.xml?"]).
Proof.
  exact (getPAZ_filtered_needs_stage_1_node
           station (VStr "BW") (VStr "RJOB") (VInt 20090707) "" "EHZ" false [] _ _
           (response "700" ["1"] ["1"]) (gain "0" "2900")
           rjob_resolves eq_refl eq_refl eq_refl eq_refl eq_refl eq_refl).
Defined.

Lemma getPAZ_pairs_parts_by_position_witness :
  ∃ d, _StationMapperClient.getPAZ station (VStr "BW") (VStr "MANZ") (VInt 20090707)
         "" "" false []
       = (Return d,
          ["http://localhost:8080/seismology/station/getList?station_id=MANZ&network_id=BW&datetime=20090707";
           "http://localhost:8080/xml/seismology/station/manz.xml?"]) ∧
       d !! "poles" = Some (PList [@INumber domain (1, 3)%Z; @INumber domain (2, 4)%Z]).
Proof.
  edestruct (getPAZ_pairs_parts_by_position
               station (VStr "BW") (VStr "MANZ") (VInt 20090707) "" "" false []
               manz_header
               ["http://localhost:8080/seismology/station/getList?station_id=MANZ&network_id=BW&datetime=20090707";
                "http://localhost:8080/xml/seismology/station/manz.xml?"]
               (response "600" ["1"; "2"] ["3"; "4"]) (gain "0" "2801") (gain "1" "400"))
    as (d & poles & zeros & Hd & Hp & _ & -> & _);
    [exact manz_resolves|vm_compute; reflexivity ..|discriminate|].
  exists d. split; [exact Hd|exact Hp].
Defined.

Lemma getPAZ_empty_iff_no_station_witness :
  _StationMapperClient.getPAZ station (VStr "BW") (VStr "XXXX") (VInt 20090707)
    "" "EHZ" false []
  = (Return ∅,
     ["http://localhost:8080/seismology/station/getList?station_id=XXXX&network_id=BW&datetime=20090707"]).
Proof.
  apply getPAZ_empty_iff_no_station. vm_compute. reflexivity.
Defined.

Lemma getPAZ_unsets_wildcard_filters_witness :
  _StationMapperClient.getPAZ station (VStr "BW") (VStr "MANZ") (VInt 20090707)
    "?" "EH*" false []
  = (_StationMapperClient.paz_of_header manz_header "" "" false,
     ["http://localhost:8080/seismology/station/getList?station_id=MANZ&network_id=BW&datetime=20090707";
      "http://localhost:8080/xml/seismology/station/manz.xml?"]).
Proof.
  exact (proj2 (proj2 (proj2 (proj2 (proj2 (proj2
           (getPAZ_unsets_wildcard_filters
              station (VStr "BW") (VStr "MANZ") (VInt 20090707) "?" "EH*" false []))))))
           _ _ manz_resolves).
Defined.

End fixture_PAZ.

(** ** Waveforms and previews *)

Section waveform.
Context `{Env}.

Lemma bind_lift {A B} (o : outcome A) (k : A → M B) log :
  (lift o ≫= k) log = match o with
                      | Return a => k a log
                      | Raise e => (Raise e, log)
                      end.
Proof. unfold mbind, M_bind, lift. by destruct o. Qed.

Lemma bind_fetch {B} self url kwargs (k : string → M B) log :
  (Client._fetch self url kwargs ≫= k) log =
  if Client.reserved kwargs then (Raise TypeError, log)
  else match urlopen (Client.remoteaddr self url kwargs) with
       | Return data => k data (log ++ [Client.remoteaddr self url kwargs])
       | Raise e => (Raise e, log ++ [Client.remoteaddr self url kwargs])
       end.
Proof.
  unfold mbind, M_bind, Client._fetch.
  destruct (Client.reserved kwargs); [done|].
  by destruct (urlopen (Client.remoteaddr self url kwargs)).
Qed.

Lemma reserved_insert (kwargs : gmap string value) k v :
  k ≠ "url" → k ≠ "self" →
  Client.reserved (<[k := v]> kwargs) = Client.reserved kwargs.
Proof. intros Hu Hs. unfold Client.reserved. by rewrite !lookup_insert_ne. Qed.

Lemma reserved_sent net sta loc cha start_dt end_dt apply_filter kwargs s e rate :
  Client.reserved
    (_WaveformMapperClient.padded_kwargs
       (_WaveformMapperClient.named_kwargs net sta loc cha start_dt end_dt
          apply_filter kwargs) s e rate)
  = Client.reserved kwargs.
Proof.
  unfold _WaveformMapperClient.padded_kwargs, _WaveformMapperClient.named_kwargs.
  by rewrite !reserved_insert.
Qed.

(** What [getWaveform] does once the band code and both times are known. *)
Lemma getWaveform_run self net sta loc cha start_dt end_dt apply_filter kwargs
    b rate s e log :
  str_first cha = Return b → BAND_CODE !! b = Some rate →
  to_utc start_dt = Return s → to_utc end_dt = Return e →
  _WaveformMapperClient.getWaveform self net sta loc cha start_dt end_dt apply_filter
    kwargs log =
  let addr := Client.remoteaddr (_WaveformMapperClient.client self)
                "/seismology/waveform/getWaveform"
                (_WaveformMapperClient.padded_kwargs
                   (_WaveformMapperClient.named_kwargs net sta loc cha start_dt end_dt
                      apply_filter kwargs) s e rate) in
  if Client.reserved kwargs then (Raise TypeError, log)
  else
    (data ← urlopen addr;
     if String.eqb data "" then Raise NoWaveformData
     else stream ← loads data;
          if length stream =? 0 then Raise NoWaveformData
          else Return (trim stream s e),
     log ++ [addr]).
Proof.
  intros Hb Hrate Hs He. unfold _WaveformMapperClient.getWaveform.
  rewrite bind_lift, Hb, bind_lift, Hs, bind_lift.
  unfold getitem at 1. rewrite Hrate, bind_lift, He, bind_lift.
  unfold getitem at 1. rewrite Hrate, bind_fetch.
  fold (_WaveformMapperClient.padded_kwargs
          (_WaveformMapperClient.named_kwargs net sta loc cha start_dt end_dt
             apply_filter kwargs) s e rate).
  rewrite reserved_sent. simpl. destruct (Client.reserved kwargs); [done|].
  destruct (urlopen _) as [data|err]; [|done]. simpl.
  destruct (String.eqb data ""); [done|].
  rewrite bind_lift. destruct (loads data) as [stream|err]; [|done]. simpl.
  by destruct (length stream =? 0).
Qed.

Lemma getPreview_run self args kwargs kwargs' log :
  assign_positional
    ["network_id"; "station_id"; "location_id"; "channel_id";
     "start_datetime"; "end_datetime"; "trace_ids"] args kwargs = Return kwargs' →
  _WaveformMapperClient.getPreview self args kwargs log =
  let addr := Client.remoteaddr (_WaveformMapperClient.client self)
                "/seismology/waveform/getPreview" kwargs' in
  if Client.reserved kwargs' then (Raise TypeError, log)
  else
    (data ← urlopen addr;
     if String.eqb data "" then Raise NoWaveformData else loads data,
     log ++ [addr]).
Proof.
  intros Hkw. unfold _WaveformMapperClient.getPreview.
  rewrite bind_lift, Hkw, bind_fetch. simpl.
  destruct (Client.reserved kwargs'); [done|].
  destruct (urlopen _) as [data|err]; [|done]. simpl.
  destruct (String.eqb data ""); [done|].
  rewrite bind_lift. by destruct (loads data).
Qed.

Lemma getPreviewByIds_run self args kwargs kwargs1 kwargs' log :
  assign_positional ["trace_ids"; "start_datetime"; "end_datetime"] args kwargs
    = Return kwargs1 →
  _WaveformMapperClient.join_trace_ids kwargs1 = Return kwargs' →
  _WaveformMapperClient.getPreviewByIds self args kwargs log =
  let addr := Client.remoteaddr (_WaveformMapperClient.client self)
                "/seismology/waveform/getPreview" kwargs' in
  if Client.reserved kwargs' then (Raise TypeError, log)
  else
    (data ← urlopen addr;
     if String.eqb data "" then Raise NoWaveformData else loads data,
     log ++ [addr]).
Proof.
  intros Hkw Hjoin. unfold _WaveformMapperClient.getPreviewByIds.
  rewrite bind_lift, Hkw, bind_lift, Hjoin, bind_fetch. simpl.
  destruct (Client.reserved kwargs'); [done|].
  destruct (urlopen _) as [data|err]; [|done]. simpl.
  destruct (String.eqb data ""); [done|].
  rewrite bind_lift. by destruct (loads data).
Qed.

Lemma getWaveform_early self net sta loc cha start_dt end_dt apply_filter kwargs log :
  (∀ b rate s e, ¬ (str_first cha = Return b ∧ BAND_CODE !! b = Some rate ∧
                    to_utc start_dt = Return s ∧ to_utc end_dt = Return e)) →
  ∃ e, _WaveformMapperClient.getWaveform self net sta loc cha start_dt end_dt
         apply_filter kwargs log = (Raise e, log).
Proof.
  intros Hno. unfold _WaveformMapperClient.getWaveform.
  rewrite bind_lift. destruct (str_first cha) as [b|err] eqn:Hb; [|by eexists].
  rewrite bind_lift. destruct (to_utc start_dt) as [s|err] eqn:Hs; [|by eexists].
  rewrite bind_lift. unfold getitem at 1.
  destruct (BAND_CODE !! b) as [rate|] eqn:Hrate; [|by eexists].
  rewrite bind_lift. destruct (to_utc end_dt) as [e|err] eqn:He; [|by eexists].
  destruct (Hno b rate s e). done.
Qed.

End waveform.

(** C5: for a known band code the request carries the start moved back by
    [2.0 / BAND_CODE[band_code]] and the end moved forward by as much, and
    the stream returned is the fetched one trimmed to the start and end that
    were asked for.  A keyword that [_fetch] cannot take ends the call with
    [TypeError] before any URL is opened. *)
Theorem getWaveform_pads_request_and_trims_result `{Env}
    self net sta loc cha start_dt end_dt apply_filter kwargs b rate s e log :
  str_first cha = Return b → BAND_CODE !! b = Some rate →
  to_utc start_dt = Return s → to_utc end_dt = Return e →
  let sent := _WaveformMapperClient.padded_kwargs
                (_WaveformMapperClient.named_kwargs net sta loc cha start_dt end_dt
                   apply_filter kwargs) s e rate in
  let addr := Client.remoteaddr (_WaveformMapperClient.client self)
                "/seismology/waveform/getWaveform" sent in
  sent !! "start_datetime" = Some (VTime (time_sub s (fdiv two rate))) ∧
  sent !! "end_datetime" = Some (VTime (time_add e (fdiv two rate))) ∧
  Client.query_params sent !! "start_datetime"
    = Some (py_str (VTime (time_sub s (fdiv two rate)))) ∧
  Client.query_params sent !! "end_datetime"
    = Some (py_str (VTime (time_add e (fdiv two rate)))) ∧
  _WaveformMapperClient.getWaveform self net sta loc cha start_dt end_dt apply_filter
    kwargs log =
  if Client.reserved kwargs then (Raise TypeError, log)
  else
    (data ← urlopen addr;
     if String.eqb data "" then Raise NoWaveformData
     else stream ← loads data;
          if length stream =? 0 then Raise NoWaveformData
          else Return (trim stream s e),
     log ++ [addr]).
Proof.
  intros Hb Hrate Hs He sent addr.
  assert (∀ k, "start_datetime" ≠ "min_" +:+ k ∧ "start_datetime" ≠ "max_" +:+ k) as Hfs.
  { intros k. split; intros Heq; cbn in Heq; by simplify_eq. }
  assert (∀ k, "end_datetime" ≠ "min_" +:+ k ∧ "end_datetime" ≠ "max_" +:+ k) as Hfe.
  { intros k. split; intros Heq; cbn in Heq; by simplify_eq. }
  assert (sent !! "start_datetime" = Some (VTime (time_sub s (fdiv two rate)))) as Hstart.
  { unfold sent, _WaveformMapperClient.padded_kwargs.
    rewrite lookup_insert_ne by done. apply lookup_insert_eq. }
  assert (sent !! "end_datetime" = Some (VTime (time_add e (fdiv two rate)))) as Hend.
  { unfold sent, _WaveformMapperClient.padded_kwargs. apply lookup_insert_eq. }
  split; [done|]. split; [done|].
  split; [by apply query_params_plain|]. split; [by apply query_params_plain|].
  by apply (getWaveform_run self net sta loc cha start_dt end_dt apply_filter kwargs b).
Qed.

(** C9: when the first character of the channel code is no key of
    [BAND_CODE], [getWaveform] raises without opening any URL; the exception
    is [KeyError] as soon as the start time is a time or converts to one. *)
Theorem getWaveform_unknown_band_code_fails_before_fetch `{Env}
    self net sta loc cha start_dt end_dt apply_filter kwargs b log :
  str_first cha = Return b → BAND_CODE !! b = None →
  (∃ e, _WaveformMapperClient.getWaveform self net sta loc cha start_dt end_dt
          apply_filter kwargs log = (Raise e, log)) ∧
  (∀ s, to_utc start_dt = Return s →
        _WaveformMapperClient.getWaveform self net sta loc cha start_dt end_dt
          apply_filter kwargs log = (Raise KeyError, log)).
Proof.
  intros Hb Hnone. split.
  - apply getWaveform_early. intros b' rate s e (Hb' & Hrate & _).
    rewrite Hb in Hb'. injection Hb' as <-. congruence.
  - intros s Hs. unfold _WaveformMapperClient.getWaveform.
    rewrite bind_lift, Hb, bind_lift, Hs, bind_lift.
    unfold getitem. by rewrite Hnone.
Qed.

(** C3: [getWaveform] raises the no-data exception when the body is empty and
    when the unpickled stream has no trace, and a stream it returns was
    trimmed from one with a trace; [getPreview] and [getPreviewByIds] raise
    the exception when the body is empty, but hand back whatever a non-empty
    body unpickles to, a stream without traces too. *)
Theorem previews_return_a_stream_without_traces `{Env} :
  (∀ self net sta loc cha start_dt end_dt apply_filter kwargs b rate s e log data,
     str_first cha = Return b → BAND_CODE !! b = Some rate →
     to_utc start_dt = Return s → to_utc end_dt = Return e →
     Client.reserved kwargs = false →
     let addr := Client.remoteaddr (_WaveformMapperClient.client self)
                   "/seismology/waveform/getWaveform"
                   (_WaveformMapperClient.padded_kwargs
                      (_WaveformMapperClient.named_kwargs net sta loc cha start_dt
                         end_dt apply_filter kwargs) s e rate) in
     urlopen addr = Return data →
     data = "" ∨ loads data = Return [] →
     _WaveformMapperClient.getWaveform self net sta loc cha start_dt end_dt
       apply_filter kwargs log = (Raise NoWaveformData, log ++ [addr])) ∧
  (∀ self net sta loc cha start_dt end_dt apply_filter kwargs log st log',
     _WaveformMapperClient.getWaveform self net sta loc cha start_dt end_dt
       apply_filter kwargs log = (Return st, log') →
     ∃ s e data stream,
       to_utc start_dt = Return s ∧ to_utc end_dt = Return e ∧
       data ≠ "" ∧ loads data = Return stream ∧ stream ≠ [] ∧
       st = trim stream s e) ∧
  (∀ self args kwargs kwargs' log data,
     assign_positional
       ["network_id"; "station_id"; "location_id"; "channel_id";
        "start_datetime"; "end_datetime"; "trace_ids"] args kwargs = Return kwargs' →
     Client.reserved kwargs' = false →
     let addr := Client.remoteaddr (_WaveformMapperClient.client self)
                   "/seismology/waveform/getPreview" kwargs' in
     urlopen addr = Return data →
     _WaveformMapperClient.getPreview self args kwargs log
     = (if String.eqb data "" then Raise NoWaveformData else loads data,
        log ++ [addr])) ∧
  (∀ self args kwargs kwargs1 kwargs' log data,
     assign_positional ["trace_ids"; "start_datetime"; "end_datetime"] args kwargs
       = Return kwargs1 →
     _WaveformMapperClient.join_trace_ids kwargs1 = Return kwargs' →
     Client.reserved kwargs' = false →
     let addr := Client.remoteaddr (_WaveformMapperClient.client self)
                   "/seismology/waveform/getPreview" kwargs' in
     urlopen addr = Return data →
     _WaveformMapperClient.getPreviewByIds self args kwargs log
     = (if String.eqb data "" then Raise NoWaveformData else loads data,
        log ++ [addr])).
Proof.
  split; [|split; [|split]].
  - intros self net sta loc cha start_dt end_dt apply_filter kwargs b rate s e log data
      Hb Hrate Hs He Hres addr Hurl Hdata.
    rewrite (getWaveform_run self net sta loc cha start_dt end_dt apply_filter kwargs
               b rate s e log Hb Hrate Hs He).
    simpl. fold addr. rewrite Hres, Hurl. simpl. destruct Hdata as [->|Hloads]; [done|].
    destruct (String.eqb data ""); [done|]. by rewrite Hloads.
  - intros self net sta loc cha start_dt end_dt apply_filter kwargs log st log' Hret.
    destruct (str_first cha) as [b|err] eqn:Hb.
    2: { unfold _WaveformMapperClient.getWaveform in Hret.
         by rewrite bind_lift, Hb in Hret. }
    destruct (to_utc start_dt) as [s|err] eqn:Hs.
    2: { unfold _WaveformMapperClient.getWaveform in Hret.
         by rewrite bind_lift, Hb, bind_lift, Hs in Hret. }
    destruct (BAND_CODE !! b) as [rate|] eqn:Hrate.
    2: { unfold _WaveformMapperClient.getWaveform in Hret.
         rewrite bind_lift, Hb, bind_lift, Hs, bind_lift in Hret.
         unfold getitem in Hret. by rewrite Hrate in Hret. }
    destruct (to_utc end_dt) as [e|err] eqn:He.
    2: { unfold _WaveformMapperClient.getWaveform in Hret.
         rewrite bind_lift, Hb, bind_lift, Hs, bind_lift in Hret.
         unfold getitem at 1 in Hret. by rewrite Hrate, bind_lift, He in Hret. }
    rewrite (getWaveform_run self net sta loc cha start_dt end_dt apply_filter kwargs
               b rate s e log Hb Hrate Hs He) in Hret.
    simpl in Hret. destruct (Client.reserved kwargs); [done|].
    destruct (urlopen _) as [data|err]; [|done]. simpl in Hret.
    destruct (String.eqb data "") eqn:Hdata; [done|].
    destruct (loads data) as [stream|err] eqn:Hloads; [|done]. simpl in Hret.
    destruct stream as [|tr stream]; [done|]. simpl in Hret.
    exists s, e, data, (tr :: stream).
    repeat (split; [done|]). split.
    + intros ->. done.
    + split; [done|]. split; [done|]. congruence.
  - intros self args kwargs kwargs' log data Hkw Hres addr Hurl.
    rewrite (getPreview_run self args kwargs kwargs' log Hkw). simpl.
    fold addr. by rewrite Hres, Hurl.
  - intros self args kwargs kwargs1 kwargs' log data Hkw Hjoin Hres addr Hurl.
    rewrite (getPreviewByIds_run self args kwargs kwargs1 kwargs' log Hkw Hjoin).
    simpl. fold addr. by rewrite Hres, Hurl.
Qed.

Section fixture_waveform.
#[local] Existing Instances Fixture.domain Fixture.env.
Import Fixture.

Lemma getWaveform_pads_request_and_trims_result_witness :
  _WaveformMapperClient.getWaveform waveform "BW" "MANZ" "" "EHZ"
    (TStr "1000") (@TUTC domain 2000%Z) false ∅ []
  = (Return [(1000, 2000)%Z],
     ["http://localhost:8080/seismology/waveform/getWaveform?start_datetime=975&station_id=MANZ&channel_id=EHZ&end_datetime=2025&network_id=BW"]).
Proof.
  assert (BAND_CODE !! "E" = Some 80%Z) as Hrate by (vm_compute; reflexivity).
  destruct (getWaveform_pads_request_and_trims_result
              waveform "BW" "MANZ" "" "EHZ" (TStr "1000") (@TUTC domain 2000%Z) false ∅
              "E" 80%Z 1000%Z 2000%Z [] eq_refl Hrate eq_refl eq_refl)
    as (_ & _ & _ & _ & Hrun).
  rewrite Hrun. vm_compute. reflexivity.
Defined.

Lemma getWaveform_unknown_band_code_fails_before_fetch_witness :
  _WaveformMapperClient.getWaveform waveform "BW" "MANZ" "" "XHZ"
    (TStr "1000") (@TUTC domain 2000%Z) false ∅ [] = (Raise KeyError, []).
Proof.
  assert (BAND_CODE !! "X" = None) as Hnone by (vm_compute; reflexivity).
  destruct (getWaveform_unknown_band_code_fails_before_fetch
              waveform "BW" "MANZ" "" "XHZ" (TStr "1000") (@TUTC domain 2000%Z)
              false ∅ "X" [] eq_refl Hnone) as [_ Hkey].
  apply (Hkey 1000%Z). vm_compute. reflexivity.
Defined.

(** C9 names the failure a lookup error.  The start time is converted before
    the band code is looked up: with a start that [UTCDateTime] refuses, the
    call fails in the conversion. *)
Lemma getWaveform_unknown_band_code_counterexample :
  str_first "XHZ" = Return "X" ∧ BAND_CODE !! "X" = None ∧
  _WaveformMapperClient.getWaveform waveform "BW" "MANZ" "" "XHZ"
    (TStr "garbage") (@TUTC domain 2000%Z) false ∅ []
  = (Raise (ExternalError "ValueError"), []).
Proof. do 2 (split; [vm_compute; reflexivity|]). vm_compute. reflexivity. Qed.

Lemma previews_return_a_stream_without_traces_witness :
  _WaveformMapperClient.getWaveform waveform "BW" "RJOB" "" "EHZ"
    (TStr "1000") (@TUTC domain 2000%Z) false ∅ []
  = (Raise NoWaveformData,
     ["http://localhost:8080/seismology/waveform/getWaveform?start_datetime=975&station_id=RJOB&channel_id=EHZ&end_datetime=2025&network_id=BW"]) ∧
  _WaveformMapperClient.getPreview waveform [VStr "BW"; VStr "RJOB"] ∅ []
  = (Return [],
     ["http://localhost:8080/seismology/waveform/getPreview?station_id=RJOB&network_id=BW"]) ∧
  _WaveformMapperClient.getPreviewByIds waveform [VList [VStr "BW.RJOB..EHZ"]] ∅ []
  = (Return [],
     ["http://localhost:8080/seismology/waveform/getPreview?trace_ids=BW.RJOB..EHZ"]).
Proof.
  assert (BAND_CODE !! "E" = Some 80%Z) as Hrate by (vm_compute; reflexivity).
  assert (Client.reserved (∅ : gmap string value) = false) as Hfree
    by (vm_compute; reflexivity).
  destruct previews_return_a_stream_without_traces as (Hwave & _ & Hpre & Hids).
  split; [|split].
  - pose proof (Hwave waveform "BW" "RJOB" "" "EHZ" (TStr "1000") (@TUTC domain 2000%Z)
                  false ∅ "E" 80%Z 1000%Z 2000%Z [] "pickle:0"
                  eq_refl Hrate eq_refl eq_refl Hfree) as Hw.
    cbv zeta in Hw. rewrite Hw.
    + vm_compute. reflexivity.
    + vm_compute. reflexivity.
    + right. reflexivity.
  - epose proof (Hpre waveform [VStr "BW"; VStr "RJOB"] ∅ _ [] "pickle:0" eq_refl) as Hp.
    cbv zeta in Hp. rewrite Hp; vm_compute; reflexivity.
  - epose proof (Hids waveform [VList [VStr "BW.RJOB..EHZ"]] ∅ _ _ [] "pickle:0"
                   eq_refl eq_refl) as Hi.
    cbv zeta in Hi. rewrite Hi; vm_compute; reflexivity.
Defined.

End fixture_waveform.

(** * Further properties *)

(** ** Query encoding, continued *)

Section encoding_more.
Context `{Env}.

Lemma foldl_add_param_writes l acc :
  foldl Client.add_param acc l = foldl write acc (l ≫= writes).
Proof.
  revert acc. induction l as [|kv l IH]; intros acc; [done|].
  simpl. rewrite foldl_app, <- add_param_writes. apply IH.
Qed.

Lemma query_params_falsy kwargs n v :
  kwargs !! n = Some v → truthy v = false →
  (∀ k, n ≠ "min_" +:+ k ∧ n ≠ "max_" +:+ k) →
  Client.query_params kwargs !! n = None.
Proof.
  intros Hn Ht Hfresh. apply query_params_unwritten. intros k' v' s Hk' Hw.
  apply writes_cases in Hw as [Ht' [(_ & -> & _)|(lo & hi & _ & Hw)]].
  - congruence.
  - destruct (Hfresh k'). destruct Hw as [[? _]|[? _]]; done.
Qed.

(** X1: without a name clash the parameters do not depend on the order in
    which the loop visits the arguments. *)
Theorem fetch_params_do_not_depend_on_order (kwargs : gmap string value)
    (l : list (string * value)) :
  clash_free kwargs = true → l ≡ₚ map_to_list kwargs →
  foldl Client.add_param ∅ l = Client.query_params kwargs.
Proof.
  intros Hcf Hl. apply map_eq. intros n. rewrite foldl_add_param_writes.
  assert (∀ s, (n, s) ∈ l ≫= writes →
               ∃ k v, kwargs !! k = Some v ∧ (n, s) ∈ writes (k, v)) as Hfrom.
  { intros s [[k v] [Hw Hin]]%list_elem_of_bind. exists k, v. split; [|done].
    rewrite Hl in Hin. by apply elem_of_map_to_list. }
  assert (∀ k v s, kwargs !! k = Some v → (n, s) ∈ writes (k, v) →
                   (n, s) ∈ l ≫= writes) as Hto.
  { intros k v s Hk Hw. apply list_elem_of_bind. exists (k, v). split; [done|].
    rewrite Hl. by apply elem_of_map_to_list. }
  destruct (foldl write ∅ (l ≫= writes) !! n) as [s|] eqn:Hleft.
  - apply foldl_write_origin in Hleft as [Hw|Hw]; [|by rewrite lookup_empty in Hw].
    destruct (Hfrom s Hw) as (k & v & Hk & Hkv).
    symmetry. by apply (query_params_written kwargs k v).
  - destruct (Client.query_params kwargs !! n) as [s|] eqn:Hright; [|done].
    apply query_params_origin in Hright as (k & v & Hk & Hw).
    rewrite (foldl_write_present (l ≫= writes) ∅ n s) in Hleft; [done|by eapply Hto|].
    intros s' (k' & v' & Hk' & Hw')%Hfrom.
    exact (writer_unique kwargs n s' s k' v' k v Hcf Hk' Hw' Hk Hw).
Qed.

(** X2: when every argument is falsy, and so when there is none, the
    dictionary given to [urlencode] is empty. *)
Theorem fetch_sends_no_parameter_for_falsy_kwargs (kwargs : gmap string value) :
  map_Forall (λ _ v, truthy v = false) kwargs →
  Client.query_params kwargs = ∅.
Proof.
  intros Hall. apply map_eq. intros n. rewrite lookup_empty.
  apply query_params_unwritten. intros k v s Hk Hw.
  apply writes_cases in Hw as [Ht _]. specialize (Hall k v Hk). simpl in Hall.
  congruence.
Qed.

End encoding_more.

(** ** Positional arguments *)

Lemma assign_positional_overflow `{Domain} names args (kwargs : gmap string value) :
  length names < length args →
  assign_positional names args kwargs = Raise IndexError.
Proof.
  revert names kwargs. induction args as [|a args IH]; intros names kwargs Hlen.
  - simpl in Hlen. lia.
  - destruct names as [|name names]; [done|]. simpl. apply IH. simpl in Hlen. lia.
Qed.

Lemma assign_positional_fits `{Domain} names args (kwargs : gmap string value) :
  length args ≤ length names → NoDup names →
  ∃ kwargs', assign_positional names args kwargs = Return kwargs' ∧
    (∀ i name a, names !! i = Some name → args !! i = Some a →
                 kwargs' !! name = Some a) ∧
    (∀ key, key ∉ take (length args) names → kwargs' !! key = kwargs !! key).
Proof.
  revert names kwargs. induction args as [|a args IH]; intros names kwargs Hlen Hnd.
  - exists kwargs. split; [by destruct names|]. split; [|done].
    intros i name a _ Ha. by rewrite lookup_nil in Ha.
  - destruct names as [|name names]; [simpl in Hlen; lia|].
    apply NoDup_cons in Hnd as [Hname Hnd]. simpl in Hlen.
    destruct (IH names (<[name := a]> kwargs)) as (kwargs' & Hrun & Hset & Hkeep);
      [lia|done|].
    exists kwargs'. split; [done|]. split.
    + intros [|i] name' a' Hn Ha; simpl in *.
      * simplify_eq. rewrite Hkeep; [apply lookup_insert_eq|].
        intros Hin%elem_of_take. destruct Hin as (j & Hj & _).
        apply Hname. by eapply list_elem_of_lookup_2.
      * by eapply Hset.
    + intros key Hkey. simpl in Hkey. apply not_elem_of_cons in Hkey as [Hne Hkey].
      rewrite (Hkeep key Hkey). by apply lookup_insert_ne.
Qed.

(** X3: a call with more positional arguments than the method has names
    for raises [IndexError] before anything is fetched. *)
Theorem surplus_positional_arguments_raise_before_fetch `{Env} :
  (∀ self args kwargs log, 4 < length args →
     _WaveformMapperClient_listing.getLatency self args kwargs log
     = (Raise IndexError, log)) ∧
  (∀ self args kwargs log, 7 < length args →
     _WaveformMapperClient.getPreview self args kwargs log = (Raise IndexError, log)) ∧
  (∀ self args kwargs log, 3 < length args →
     _WaveformMapperClient.getPreviewByIds self args kwargs log
     = (Raise IndexError, log)) ∧
  (∀ self args kwargs log, 2 < length args →
     _StationMapperClient.getList self args kwargs log = (Raise IndexError, log)).
Proof.
  split; [|split; [|split]]; intros self args kwargs log Hlen.
  - unfold _WaveformMapperClient_listing.getLatency.
    by rewrite bind_lift, assign_positional_overflow.
  - unfold _WaveformMapperClient.getPreview.
    by rewrite bind_lift, assign_positional_overflow.
  - unfold _WaveformMapperClient.getPreviewByIds.
    by rewrite bind_lift, assign_positional_overflow.
  - unfold _StationMapperClient.getList.
    by rewrite bind_lift, assign_positional_overflow.
Qed.

(** X4: the positional arguments are stored under the names of the method's
    table, position by position, replacing a keyword argument of the same
    name; the other keyword arguments are kept. *)
Theorem positional_arguments_replace_keywords `{Domain}
    (names : list string) (args : list value) (kwargs : gmap string value) :
  names ∈ [ ["network_id"; "station_id"; "location_id"; "channel_id"];
            ["network_id"; "station_id"; "location_id"; "channel_id";
             "start_datetime"; "end_datetime"; "trace_ids"];
            ["trace_ids"; "start_datetime"; "end_datetime"];
            ["network_id"; "station_id"] ] →
  length args ≤ length names →
  ∃ kwargs', assign_positional names args kwargs = Return kwargs' ∧
    (∀ i name a, names !! i = Some name → args !! i = Some a →
                 kwargs' !! name = Some a) ∧
    (∀ key, key ∉ take (length args) names → kwargs' !! key = kwargs !! key).
Proof.
  intros Hnames Hlen. apply assign_positional_fits; [done|].
  set_unfold. destruct Hnames as [->|[->|[->|[->|[]]]]];
    by apply (bool_decide_unpack _).
Qed.

(** ** Previews by identifier *)

Lemma join_strs_all `{Domain} (strs : list string) :
  join_strs (VStr <$> strs) = Return strs.
Proof. induction strs as [|s strs IH]; [done|]. csimpl. by rewrite IH. Qed.

(** X5: [getPreviewByIds] sends a list of identifiers as one string, the
    identifiers joined by commas: such a list of two is not taken for a
    range, and an empty list leaves no [trace_ids] parameter.  With a keyword
    that [_fetch] cannot take the call raises [TypeError] and opens no URL. *)
Theorem getPreviewByIds_joins_identifiers `{Env}
    self args kwargs kwargs1 (ids : list string) log :
  assign_positional ["trace_ids"; "start_datetime"; "end_datetime"] args kwargs
    = Return kwargs1 →
  kwargs1 !! "trace_ids" = Some (VList (VStr <$> ids)) →
  let joined := String.concat "," ids in
  let sent := <["trace_ids" := VStr joined]> kwargs1 in
  let addr := Client.remoteaddr (_WaveformMapperClient.client self)
                "/seismology/waveform/getPreview" sent in
  _WaveformMapperClient.getPreviewByIds self args kwargs log =
    (if Client.reserved kwargs1 then (Raise TypeError, log)
     else (data ← urlopen addr;
           if String.eqb data "" then Raise NoWaveformData else loads data,
           log ++ [addr])) ∧
  Client.query_params sent !! "trace_ids"
    = (if String.eqb joined "" then None else Some (py_str (VStr joined))).
Proof.
  intros Hkw Hids joined sent addr.
  assert (_WaveformMapperClient.join_trace_ids kwargs1 = Return sent) as Hjoin.
  { unfold _WaveformMapperClient.join_trace_ids. rewrite Hids, join_strs_all. done. }
  split.
  { rewrite (getPreviewByIds_run self args kwargs kwargs1 sent log Hkw Hjoin).
    unfold sent. by rewrite reserved_insert. }
  assert (sent !! "trace_ids" = Some (VStr joined)) as Hsent
    by apply lookup_insert_eq.
  assert (∀ k, "trace_ids" ≠ "min_" +:+ k ∧ "trace_ids" ≠ "max_" +:+ k) as Hfresh.
  { intros k. split; intros Heq; cbn in Heq; by simplify_eq. }
  destruct (String.eqb joined "") eqn:Hempty.
  - apply (query_params_falsy sent "trace_ids" (VStr joined)); [done| |done].
    simpl. by rewrite Hempty.
  - apply (query_params_plain sent "trace_ids" (VStr joined)); [done| |done|done].
    simpl. by rewrite Hempty.
Qed.

(** X6: [getPreviewByIds] raises [TypeError] before anything is fetched when
    the list of identifiers holds something that is not a str. *)
Theorem getPreviewByIds_rejects_non_str_identifier `{Env}
    self args kwargs kwargs1 (ids : list value) i v log :
  assign_positional ["trace_ids"; "start_datetime"; "end_datetime"] args kwargs
    = Return kwargs1 →
  kwargs1 !! "trace_ids" = Some (VList ids) →
  ids !! i = Some v → (∀ s, v ≠ VStr s) →
  _WaveformMapperClient.getPreviewByIds self args kwargs log = (Raise TypeError, log).
Proof.
  intros Hkw Hids Hi Hv. unfold _WaveformMapperClient.getPreviewByIds.
  rewrite bind_lift, Hkw, bind_lift.
  unfold _WaveformMapperClient.join_trace_ids. rewrite Hids.
  assert (join_strs ids = Raise TypeError) as ->; [|done].
  clear Hids. revert i Hi. induction ids as [|w ids IH]; intros i Hi; [done|].
  destruct i as [|i]; simpl in Hi.
  - injection Hi as ->. destruct v; try done. by destruct (Hv s).
  - destruct w; try done. simpl. by rewrite (IH i Hi).
Qed.

(** ** How many URLs a call opens *)

Section fetches.
Context `{Env}.

Lemma bind_run {A B} (m : M A) (k : A → M B) log :
  (m ≫= k) log = match m log with
                 | (Return a, log') => k a log'
                 | (Raise e, log') => (Raise e, log')
                 end.
Proof. done. Qed.

Lemma objectify_run self url kwargs log :
  Client._objectify self url kwargs log
  = if Client.reserved kwargs then (Raise TypeError, log)
    else (urlopen (Client.remoteaddr self url kwargs) ≫= fromstring,
          log ++ [Client.remoteaddr self url kwargs]).
Proof.
  unfold Client._objectify. rewrite bind_fetch.
  destruct (Client.reserved kwargs); [done|].
  by destruct (urlopen _).
Qed.

Lemma reserved_empty : Client.reserved (∅ : gmap string value) = false.
Proof. unfold Client.reserved. by rewrite !lookup_empty. Qed.

Lemma reserved_list_kwargs net sta dt :
  Client.reserved (_StationMapperClient.list_kwargs net sta dt) = false.
Proof.
  unfold _StationMapperClient.list_kwargs.
  rewrite !reserved_insert by done. apply reserved_empty.
Qed.

Lemma station_getList_run self net sta dt log :
  _StationMapperClient.getList self [] (_StationMapperClient.list_kwargs net sta dt) log
  = (root ← urlopen (Client.remoteaddr (_StationMapperClient.client self)
                       "/seismology/station/getList"
                       (_StationMapperClient.list_kwargs net sta dt)) ≫= fromstring;
     Return (__dict__ <$> children root),
     log ++ [Client.remoteaddr (_StationMapperClient.client self)
               "/seismology/station/getList"
               (_StationMapperClient.list_kwargs net sta dt)]).
Proof.
  unfold _StationMapperClient.getList. rewrite bind_lift. simpl.
  rewrite bind_run, objectify_run, reserved_list_kwargs.
  by destruct (urlopen _ ≫= fromstring).
Qed.

Lemma fetch_header_log self rows log r log' :
  _StationMapperClient.fetch_header self rows log = (r, log') →
  (log' = log ∧ ∃ e, r = Raise e) ∨ (∃ addr, log' = log ++ [addr]).
Proof.
  unfold _StationMapperClient.fetch_header. rewrite bind_lift.
  destruct (first_item rows) as [xml_doc|e]; [|intros [= <- <-]; left; eauto].
  rewrite bind_lift.
  destruct (getitem xml_doc "resource_name") as [name|e];
    [|intros [= <- <-]; left; eauto].
  rewrite bind_run. unfold _StationMapperClient.getXMLResource at 1.
  rewrite bind_lift.
  destruct (str_add _ name) as [url|e]; [|intros [= <- <-]; left; eauto].
  rewrite objectify_run, reserved_empty.
  destruct (urlopen _ ≫= fromstring) as [res|e]; intros [= <- <-]; right; eauto.
Qed.

End fetches.

(** X7: [getWaveform], [getPreview] and [getPreviewByIds] open one URL at
    most, and a stream they return comes from exactly one. *)
Theorem waveform_methods_open_at_most_one_url `{Env} :
  (∀ self net sta loc cha start_dt end_dt apply_filter kwargs log res log',
     _WaveformMapperClient.getWaveform self net sta loc cha start_dt end_dt
       apply_filter kwargs log = (res, log') →
     (log' = log ∧ ∃ e, res = Raise e) ∨ (∃ addr, log' = log ++ [addr])) ∧
  (∀ self args kwargs log res log',
     _WaveformMapperClient.getPreview self args kwargs log = (res, log') →
     (log' = log ∧ ∃ e, res = Raise e) ∨ (∃ addr, log' = log ++ [addr])) ∧
  (∀ self args kwargs log res log',
     _WaveformMapperClient.getPreviewByIds self args kwargs log = (res, log') →
     (log' = log ∧ ∃ e, res = Raise e) ∨ (∃ addr, log' = log ++ [addr])).
Proof.
  split; [|split].
  - intros self net sta loc cha start_dt end_dt apply_filter kwargs log res log'.
    destruct (str_first cha) as [b|e0] eqn:Hb.
    2:{ unfold _WaveformMapperClient.getWaveform. rewrite bind_lift, Hb.
        intros [= <- <-]. left. eauto. }
    destruct (to_utc start_dt) as [s|e0] eqn:Hs.
    2:{ unfold _WaveformMapperClient.getWaveform. rewrite bind_lift, Hb, bind_lift, Hs.
        intros [= <- <-]. left. eauto. }
    destruct (BAND_CODE !! b) as [rate|] eqn:Hrate.
    2:{ unfold _WaveformMapperClient.getWaveform.
        rewrite bind_lift, Hb, bind_lift, Hs, bind_lift. unfold getitem. rewrite Hrate.
        intros [= <- <-]. left. eauto. }
    destruct (to_utc end_dt) as [e|e0] eqn:He.
    2:{ unfold _WaveformMapperClient.getWaveform.
        rewrite bind_lift, Hb, bind_lift, Hs, bind_lift. unfold getitem at 1.
        rewrite Hrate, bind_lift, He. intros [= <- <-]. left. eauto. }
    rewrite (getWaveform_run self net sta loc cha start_dt end_dt apply_filter kwargs
               b rate s e log Hb Hrate Hs He).
    cbv zeta. destruct (Client.reserved kwargs); intros [= <- <-]; [left|right]; eauto.
  - intros self args kwargs log res log'.
    destruct (assign_positional
                ["network_id"; "station_id"; "location_id"; "channel_id";
                 "start_datetime"; "end_datetime"; "trace_ids"] args kwargs)
      as [kwargs'|e] eqn:Hkw.
    + rewrite (getPreview_run self args kwargs kwargs' log Hkw).
      cbv zeta. destruct (Client.reserved kwargs'); intros [= <- <-]; [left|right]; eauto.
    + unfold _WaveformMapperClient.getPreview. rewrite bind_lift, Hkw.
      intros [= <- <-]. left. eauto.
  - intros self args kwargs log res log'.
    destruct (assign_positional ["trace_ids"; "start_datetime"; "end_datetime"]
                args kwargs) as [kwargs1|e] eqn:Hkw.
    2:{ unfold _WaveformMapperClient.getPreviewByIds. rewrite bind_lift, Hkw.
        intros [= <- <-]. left. eauto. }
    destruct (_WaveformMapperClient.join_trace_ids kwargs1) as [kwargs'|e] eqn:Hjoin.
    + rewrite (getPreviewByIds_run self args kwargs kwargs1 kwargs' log Hkw Hjoin).
      cbv zeta. destruct (Client.reserved kwargs'); intros [= <- <-]; [left|right]; eauto.
    + unfold _WaveformMapperClient.getPreviewByIds.
      rewrite bind_lift, Hkw, bind_lift, Hjoin. intros [= <- <-]. left. eauto.
Qed.

(** X8: [getPAZ] always opens the station list first; it opens one more URL
    at most, none when the list is empty, and a dictionary with entries
    comes from exactly two. *)
Theorem getPAZ_opens_the_list_then_one_resource `{Env}
    self net sta dt loc chan flag log res log' :
  _StationMapperClient.getPAZ self net sta dt loc chan flag log = (res, log') →
  let list_addr := Client.remoteaddr (_StationMapperClient.client self)
                     "/seismology/station/getList"
                     (_StationMapperClient.list_kwargs net sta dt) in
  (log' = log ++ [list_addr] ∨ ∃ addr, log' = log ++ [list_addr; addr]) ∧
  (res = Return ∅ → log' = log ++ [list_addr]) ∧
  (∀ d, res = Return d → d ≠ ∅ → ∃ addr, log' = log ++ [list_addr; addr]).
Proof.
  intros Hrun list_addr. rewrite getPAZ_unfold, station_getList_run in Hrun.
  fold list_addr in Hrun.
  destruct (_ ← _ ≫= fromstring; _) as [[|row rows]|e].
  - injection Hrun as <- <-. split; [by left|]. split; [done|]. by intros d [= <-].
  - destruct (_StationMapperClient.fetch_header self (row :: rows) (log ++ [list_addr]))
      as [[base|e] log2] eqn:Hhead.
    + apply fetch_header_log in Hhead as [[_ [e He]]|[addr ->]]; [done|].
      injection Hrun as <- <-. rewrite <- (assoc_L (++)). simpl.
      split; [right; eauto|]. split; [|eauto].
      intros Hd. by apply paz_of_header_nonempty in Hd.
    + apply fetch_header_log in Hhead as [[-> _]|[addr ->]].
      * injection Hrun as <- <-. split; [by left|]. by split.
      * injection Hrun as <- <-. rewrite <- (assoc_L (++)). simpl.
        split; [right; eauto|]. by split.
  - injection Hrun as <- <-. split; [by left|]. by split.
Qed.

(** X15: when the first listed station has no [resource_name], [getPAZ]
    raises [KeyError] without fetching a resource. *)
Theorem getPAZ_raises_KeyError_without_resource_name `{Env}
    self net sta dt loc chan flag log row rows log1 :
  _StationMapperClient.getList self []
    (_StationMapperClient.list_kwargs net sta dt) log = (Return (row :: rows), log1) →
  row !! "resource_name" = None →
  _StationMapperClient.getPAZ self net sta dt loc chan flag log = (Raise KeyError, log1).
Proof.
  intros Hlist Hrow. rewrite getPAZ_unfold, Hlist.
  unfold _StationMapperClient.fetch_header. rewrite bind_lift. simpl.
  rewrite bind_lift. unfold getitem. by rewrite Hrow.
Qed.

(** ** The dictionary of [getPAZ] *)

Section result.
Context `{Env}.

(** X9: a dictionary built by [getPAZ] has the keys [poles], [zeros], [gain]
    and [sensitivity], and the key [seismometer_gain] exactly when it was asked
    for. *)
Theorem getPAZ_result_keys p s g flag d :
  _StationMapperClient.build_paz p s g flag = Return d →
  dom d = {[ "poles"; "zeros"; "gain"; "sensitivity" ]}
          ∪ (if flag then {[ "seismometer_gain" ]} else ∅).
Proof.
  unfold _StationMapperClient.build_paz, mbind, outcome_bind.
  intros Hd. repeat (case_match; simplify_eq);
    rewrite !dom_insert_L, dom_empty_L; set_solver.
Qed.

(** X10: asking for the seismometer gain only adds its entry: the other
    entries are those of the call without it. *)
Theorem getPAZ_seismometer_gain_only_adds_an_entry p s g d :
  _StationMapperClient.build_paz p s g true = Return d →
  ∃ sg, getattr g "sensitivity_gain" = Return sg ∧
        d !! "seismometer_gain" = Some (PElement sg) ∧
        _StationMapperClient.build_paz p s g false
          = Return (delete "seismometer_gain" d).
Proof.
  unfold _StationMapperClient.build_paz, mbind, outcome_bind.
  intros Hd. repeat (case_match; simplify_eq).
  eexists. split; [done|]. split; [apply lookup_insert_eq|].
  reflexivity.
Qed.

(** X11: when there are more real parts than imaginary parts, or the other
    way round, the surplus is dropped: the list has the length of the shorter
    one, and only the parts that are paired need be numbers. *)
Theorem complex_list_drops_surplus_parts reals imags res ims :
  mapM numeric (take (length imags) reals) = Some res →
  mapM numeric (take (length reals) imags) = Some ims →
  _StationMapperClient.complex_list (zip reals imags)
    = Return (INumber <$> zip_with complex_of res ims) ∧
  length (zip_with complex_of res ims) = length reals `min` length imags.
Proof.
  intros Hre Him. split.
  - rewrite <- (zip_with_take_both pair reals imags).
    by apply complex_list_zip.
  - apply length_mapM in Hre, Him. rewrite length_take in Hre, Him.
    rewrite length_zip_with. lia.
Qed.

End result.

(** ** Node selection, continued *)

Section selection_more.
Context `{Env}.

Lemma after_first_none (anchor : element → bool) l :
  Forall (λ e, anchor e = false) l → after_first anchor l = None.
Proof. induction 1 as [|e l He _ IH]; [done|]. simpl. by rewrite He. Qed.

Lemma after_first_app (anchor : element → bool) pre a rest :
  Forall (λ e, anchor e = false) pre → anchor a = true →
  after_first anchor (pre ++ a :: rest) = Some rest.
Proof.
  induction 1 as [|e l He _ IH]; intros Ha; simpl; [by rewrite Ha|].
  rewrite He. by apply IH.
Qed.

Lemma find_app (target : element → bool) mid p post :
  Forall (λ e, target e = false) mid → target p = true →
  find target (mid ++ p :: post) = Some p.
Proof.
  induction 1 as [|e l He _ IH]; intros Hp; simpl; [by rewrite Hp|].
  rewrite He. by apply IH.
Qed.

(** X12: without filters, a station control header that lacks a
    [response_poles_and_zeros] child or a [channel_sensitivity_gain] child
    makes [getPAZ] raise [AttributeError]. *)
Theorem getPAZ_unfiltered_raises_AttributeError_without_nodes
    self net sta dt loc chan flag log base log' :
  resolves self net sta dt log base log' →
  unset_if_wildcard chan = "" → unset_if_wildcard loc = "" →
  named_children base "response_poles_and_zeros" = [] ∨
  named_children base "channel_sensitivity_gain" = [] →
  _StationMapperClient.getPAZ self net sta dt loc chan flag log
  = (Raise AttributeError, log').
Proof.
  intros Hres Hc Hl Hmiss. rewrite (getPAZ_resolved _ _ _ _ _ _ _ _ _ _ Hres).
  unfold _StationMapperClient.paz_of_header, _StationMapperClient.select_nodes.
  rewrite Hc, Hl. simpl. unfold getattr_all, getattr_last, getattr.
  destruct Hmiss as [Hp|Hg].
  - by rewrite Hp.
  - rewrite Hg. by destruct (named_children base "response_poles_and_zeros").
Qed.

(** X13: with a filter that no [channel_identifier] child matches, [getPAZ]
    raises [IndexError]. *)
Theorem getPAZ_filtered_raises_IndexError_without_match
    self net sta dt loc chan flag log base log' :
  resolves self net sta dt log base log' →
  _StationMapperClient.filtered (unset_if_wildcard chan) (unset_if_wildcard loc) = true →
  quotable (unset_if_wildcard chan) = true →
  quotable (unset_if_wildcard loc) = true →
  Forall (λ e, is_channel (unset_if_wildcard chan) (unset_if_wildcard loc) e = false)
         (children base) →
  _StationMapperClient.getPAZ self net sta dt loc chan flag log = (Raise IndexError, log').
Proof.
  intros Hres Hf Hc Hl Hno.
  rewrite (getPAZ_filtered _ _ _ _ _ _ _ _ _ _ Hres Hf Hc Hl).
  unfold nearest_following. by rewrite (after_first_none _ _ Hno).
Qed.

(** X14: for filters without an apostrophe, the poles-and-zeros query takes
    the first [response_poles_and_zeros] child after the first matching
    [channel_identifier] child, whatever lies between them, other
    [channel_identifier] children included. *)
Theorem paz_query_takes_first_response_after_first_match
    base c l pre a mid p post :
  quotable c = true → quotable l = true →
  children base = pre ++ a :: mid ++ p :: post →
  Forall (λ e, is_channel c l e = false) pre → is_channel c l a = true →
  Forall (λ e, is_paz e = false) mid → is_paz p = true →
  xpath base (paz_query c l) ≫= first_item = Return p.
Proof.
  intros Hc Hl Hkids Hpre Ha Hmid Hp.
  rewrite xpath_first by (by apply well_quoted_paz).
  simpl anchor_name. simpl anchor_tests. simpl target_name. simpl target_tests.
  rewrite nearest_paz, Hkids. unfold nearest_following.
  rewrite (after_first_app _ _ _ _ Hpre Ha). simpl.
  by rewrite (find_app _ _ _ _ Hmid Hp).
Qed.

End selection_more.

(** ** The request of [getWaveform] *)

(** X16: [getWaveform] sends a code only when it is not empty, and
    [apply_filter] only when it is true.  The one address it opens is made
    from these parameters; it opens none when a keyword is one that [_fetch]
    cannot take. *)
Theorem getWaveform_sends_only_non_empty_codes `{Env}
    self net sta loc cha start_dt end_dt apply_filter kwargs b rate s e log :
  str_first cha = Return b → BAND_CODE !! b = Some rate →
  to_utc start_dt = Return s → to_utc end_dt = Return e →
  let sent := _WaveformMapperClient.padded_kwargs
                (_WaveformMapperClient.named_kwargs net sta loc cha start_dt end_dt
                   apply_filter kwargs) s e rate in
  (_WaveformMapperClient.getWaveform self net sta loc cha start_dt end_dt
     apply_filter kwargs log).2
  = (if Client.reserved kwargs then log
     else log ++ [Client.remoteaddr (_WaveformMapperClient.client self)
                    "/seismology/waveform/getWaveform" sent]) ∧
  (∀ name code,
     (name, code) ∈ [("network_id", net); ("station_id", sta);
                     ("location_id", loc); ("channel_id", cha)] →
     Client.query_params sent !! name
     = if String.eqb code "" then None else Some (py_str (VStr code))) ∧
  Client.query_params sent !! "apply_filter"
  = if apply_filter then Some (py_str (VBool true)) else None.
Proof.
  intros Hb Hrate Hs He sent. split; [|split].
  - rewrite (getWaveform_run self net sta loc cha start_dt end_dt apply_filter kwargs
                  b rate s e log Hb Hrate Hs He).
    cbv zeta. by destruct (Client.reserved kwargs).
  - intros name code Hin.
    assert (sent !! name = Some (VStr code) ∧
            ∀ k, name ≠ "min_" +:+ k ∧ name ≠ "max_" +:+ k) as [Hsent Hfresh].
    { repeat (apply elem_of_cons in Hin as [Hnc|Hin];
                [ injection Hnc as -> ->; split;
                  [ unfold sent, _WaveformMapperClient.padded_kwargs,
                      _WaveformMapperClient.named_kwargs;
                    rewrite !lookup_insert_ne by done; apply lookup_insert_eq
                  | intros k; split; intros Heq; cbn in Heq; by simplify_eq ]
                | ]).
      by apply elem_of_nil in Hin. }
    destruct (String.eqb code "") eqn:Hempty.
    + apply (query_params_falsy sent name (VStr code)); [done| |done].
      simpl. by rewrite Hempty.
    + apply (query_params_plain sent name (VStr code)); [done| |done|done].
      simpl. by rewrite Hempty.
  - assert (sent !! "apply_filter" = Some (VBool apply_filter)) as Hsent.
    { unfold sent, _WaveformMapperClient.padded_kwargs,
        _WaveformMapperClient.named_kwargs.
      rewrite !lookup_insert_ne by done. apply lookup_insert_eq. }
    assert (∀ k, "apply_filter" ≠ "min_" +:+ k ∧ "apply_filter" ≠ "max_" +:+ k)
      as Hfresh.
    { intros k. split; intros Heq; cbn in Heq; by simplify_eq. }
    destruct apply_filter.
    + by apply (query_params_plain sent "apply_filter" (VBool true)).
    + by apply (query_params_falsy sent "apply_filter" (VBool false)).
Qed.

(** ** Rows and listings *)

Lemma dict_fold_lookup (l : list element) (acc : gmap string element) name :
  foldl (λ d c, match d !! tag c with
                | Some _ => d
                | None => <[tag c := c]> d
                end) acc l !! name
  = match acc !! name with
    | Some x => Some x
    | None => head (filter (λ c, has_tag name c = true) l)
    end.
Proof.
  revert acc. induction l as [|c l IH]; intros acc.
  - simpl. by destruct (acc !! name).
  - simpl. rewrite IH. unfold has_tag.
    destruct (acc !! tag c) as [x|] eqn:Hc.
    + destruct (acc !! name) as [y|] eqn:Hn; [done|].
      rewrite filter_cons_False; [done|].
      intros Heq%String.eqb_eq. congruence.
    + destruct (decide (tag c = name)) as [<-|Hne].
      * rewrite lookup_insert_eq, Hc.
        rewrite filter_cons_True; [done|]. apply String.eqb_refl.
      * rewrite lookup_insert_ne by done.
        rewrite filter_cons_False; [done|].
        by intros Heq%String.eqb_eq.
Qed.

(** X17: a row dictionary holds, for each tag, the first child of the row
    with that tag: reading a key of the row gives what attribute access
    gives, and fails when no child has the tag. *)
Theorem row_dictionary_holds_first_child_per_tag (node : element) (name : string) :
  __dict__ node !! name = head (named_children node name) ∧
  getitem (__dict__ node) name
  = match getattr node name with
    | Return c => Return c
    | Raise _ => Raise KeyError
    end.
Proof.
  assert (__dict__ node !! name = head (named_children node name)) as Hrow.
  { unfold __dict__. by rewrite dict_fold_lookup, lookup_empty. }
  split; [done|]. unfold getitem, getattr. rewrite Hrow.
  by destruct (named_children node name).
Qed.

Section listings.
Context `{Env} `{Objectify}.

Lemma field_strs_spec field rows :
  field_strs field rows
  = if forallb (λ row, match named_children row field with [] => false | _ => true end)
         rows
    then Return ((λ row, str_element (default row (head (named_children row field))))
                   <$> rows)
    else Raise AttributeError.
Proof.
  induction rows as [|row rows IH]; [done|]. simpl. unfold getattr.
  destruct (named_children row field) as [|c cs] eqn:Hc; simpl; [done|].
  rewrite IH. by destruct (forallb _ rows).
Qed.

(** X18: [getNetworkIds], [getStationIds], [getLocationIds] and
    [getChannelIds] return one str per row of the answer, in the order of
    the rows, made from the first child of the row with the method's tag;
    a row without such a child makes them raise [AttributeError].  With a
    keyword that [_objectify] cannot take they raise [TypeError] and open no
    URL. *)
Theorem id_listings_return_one_str_per_row
    (op : _WaveformMapperClient.t → gmap string value → M (list string))
    (field url : string) self kwargs log root :
  (op, field, url) ∈
    [ (_WaveformMapperClient_listing.getNetworkIds, "network",
         "/seismology/waveform/getNetworkIds");
      (_WaveformMapperClient_listing.getStationIds, "station",
         "/seismology/waveform/getStationIds");
      (_WaveformMapperClient_listing.getLocationIds, "location",
         "/seismology/waveform/getLocationIds");
      (_WaveformMapperClient_listing.getChannelIds, "channel",
         "/seismology/waveform/getChannelIds") ] →
  urlopen (Client.remoteaddr (_WaveformMapperClient.client self) url kwargs)
    ≫= fromstring = Return root →
  if Client.reserved kwargs then op self kwargs log = (Raise TypeError, log)
  else
    (Forall (λ row, named_children row field ≠ []) (children root) →
     ∃ ids, (op self kwargs log).1 = Return ids ∧
            length ids = length (children root) ∧
            ∀ i row, children root !! i = Some row →
              ∃ c, head (named_children row field) = Some c ∧
                   ids !! i = Some (str_element c)) ∧
    (Exists (λ row, named_children row field = []) (children root) →
     (op self kwargs log).1 = Raise AttributeError).
Proof.
  intros Hop Hroot.
  assert (op self kwargs log
          = if Client.reserved kwargs then (Raise TypeError, log)
            else (field_strs field (children root),
                  log ++ [Client.remoteaddr (_WaveformMapperClient.client self)
                            url kwargs]))
    as Hrun.
  { repeat (apply elem_of_cons in Hop as [Hnc|Hop];
              [ injection Hnc as -> -> ->;
                unfold _WaveformMapperClient_listing.getNetworkIds,
                  _WaveformMapperClient_listing.getStationIds,
                  _WaveformMapperClient_listing.getLocationIds,
                  _WaveformMapperClient_listing.getChannelIds;
                rewrite bind_run, objectify_run, Hroot;
                by destruct (Client.reserved kwargs)
              | ]).
    by apply elem_of_nil in Hop. }
  destruct (Client.reserved kwargs); [done|].
  rewrite Hrun, field_strs_spec. simpl. split.
  - intros Hall.
    assert (forallb (λ row, match named_children row field with
                            | [] => false
                            | _ => true
                            end) (children root) = true) as ->.
    { apply Is_true_true, forallb_True. eapply Forall_impl; [exact Hall|].
      intros row Hrow. simpl in *.
      destruct (named_children row field); [by exfalso; apply Hrow|exact I]. }
    eexists. split; [done|]. split; [by rewrite length_fmap|].
    intros i row Hi. rewrite list_lookup_fmap, Hi. simpl.
    rewrite Forall_lookup in Hall. specialize (Hall i row Hi).
    destruct (named_children row field) as [|c cs]; [by exfalso; apply Hall|].
    by exists c.
  - intros Hsome.
    assert (forallb (λ row, match named_children row field with
                            | [] => false
                            | _ => true
                            end) (children root) = false) as ->; [|done].
    apply not_true_is_false. intros Hall%Is_true_true%forallb_True.
    apply Exists_exists in Hsome as (row & Hin & Hrow).
    rewrite Forall_forall in Hall. specialize (Hall row Hin). simpl in Hall.
    by rewrite Hrow in Hall.
Qed.

End listings.

(** ** The further properties on the concrete worlds *)

Section fixture_more.
#[local] Existing Instances Fixture.domain Fixture.env.
Import Fixture.

Lemma fetch_params_do_not_depend_on_order_witness :
  foldl Client.add_param ∅
    [("network_id", VStr "BW"); ("station_id", VStr "MANZ");
     ("datetime", VTuple [VInt 1; VInt 2])]
  = Client.query_params
      (<["network_id" := VStr "BW"]>
         (<["station_id" := VStr "MANZ"]>
            (<["datetime" := VTuple [VInt 1; VInt 2]]> ∅))).
Proof.
  apply fetch_params_do_not_depend_on_order.
  - vm_compute. reflexivity.
  - assert (map_to_list (<["network_id" := VStr "BW"]>
                           (<["station_id" := VStr "MANZ"]>
                              (<["datetime" := VTuple [VInt 1; VInt 2]]> ∅)))
            = [("station_id", VStr "MANZ"); ("network_id", VStr "BW");
               ("datetime", VTuple [VInt 1; VInt 2])]) as ->
      by (vm_compute; reflexivity).
    apply perm_swap.
Defined.

Lemma fetch_sends_no_parameter_for_falsy_kwargs_witness :
  Client.query_params
    (<["network_id" := VStr ""]>
       (<["apply_filter" := VBool false]>
          (<["limit" := VInt 0]> (<["trace_ids" := VList []]> (<["x" := VNone]> ∅)))))
  = ∅.
Proof.
  apply fetch_sends_no_parameter_for_falsy_kwargs.
  repeat (apply map_Forall_insert_2; [reflexivity|]). apply map_Forall_empty.
Defined.

Lemma surplus_positional_arguments_raise_before_fetch_witness :
  _StationMapperClient.getList station [VStr "BW"; VStr "MANZ"; VStr "EHZ"] ∅ []
  = (Raise IndexError, []).
Proof.
  apply surplus_positional_arguments_raise_before_fetch. simpl. lia.
Defined.

Lemma positional_arguments_replace_keywords_witness :
  ∃ kwargs' : gmap string value,
    assign_positional ["network_id"; "station_id"; "location_id"; "channel_id"]
      [VStr "BW"; VStr "MANZ"]
      (<["station_id" := VStr "RJOB"]> (<["channel_id" := VStr "EHZ"]> ∅))
    = Return kwargs' ∧
    kwargs' !! "network_id" = Some (VStr "BW") ∧
    kwargs' !! "station_id" = Some (VStr "MANZ") ∧
    kwargs' !! "channel_id" = Some (VStr "EHZ").
Proof.
  destruct (positional_arguments_replace_keywords
              ["network_id"; "station_id"; "location_id"; "channel_id"]
              [VStr "BW"; VStr "MANZ"]
              (<["station_id" := VStr "RJOB"]> (<["channel_id" := VStr "EHZ"]> ∅)))
    as (kwargs' & Hrun & Hset & Hkeep).
  - left.
  - simpl. lia.
  - exists kwargs'. split; [exact Hrun|].
    split; [exact (Hset 0 _ _ eq_refl eq_refl)|].
    split; [exact (Hset 1 _ _ eq_refl eq_refl)|].
    rewrite Hkeep; [vm_compute; reflexivity|].
    simpl. intros Hin. repeat (apply elem_of_cons in Hin as [Hin|Hin]; [done|]).
    by apply elem_of_nil in Hin.
Defined.

Lemma getPreviewByIds_joins_identifiers_witness :
  _WaveformMapperClient.getPreviewByIds waveform
    [VList [VStr "BW.RJOB..EHZ"; VStr "BW.RJOB..EHN"]] ∅ []
  = (Return [],
     ["http://localhost:8080/seismology/waveform/getPreview?trace_ids=BW.RJOB..EHZ,BW.RJOB..EHN"]).
Proof.
  destruct (getPreviewByIds_joins_identifiers waveform
              [VList [VStr "BW.RJOB..EHZ"; VStr "BW.RJOB..EHN"]] ∅
              (<["trace_ids" := VList [VStr "BW.RJOB..EHZ"; VStr "BW.RJOB..EHN"]]> ∅)
              ["BW.RJOB..EHZ"; "BW.RJOB..EHN"] [] eq_refl)
    as [Hrun _]; [vm_compute; reflexivity|].
  rewrite Hrun. vm_compute. reflexivity.
Defined.

Lemma getPreviewByIds_rejects_non_str_identifier_witness :
  _WaveformMapperClient.getPreviewByIds waveform
    [VList [VStr "BW.RJOB..EHZ"; VInt 7]] ∅ [] = (Raise TypeError, []).
Proof.
  apply (getPreviewByIds_rejects_non_str_identifier waveform
           [VList [VStr "BW.RJOB..EHZ"; VInt 7]] ∅
           (<["trace_ids" := VList [VStr "BW.RJOB..EHZ"; VInt 7]]> ∅)
           [VStr "BW.RJOB..EHZ"; VInt 7] 1 (VInt 7)).
  - reflexivity.
  - vm_compute. reflexivity.
  - reflexivity.
  - intros s. discriminate.
Defined.

Lemma waveform_methods_open_at_most_one_url_witness :
  (∃ addr, [addr] =
     ["http://localhost:8080/seismology/waveform/getPreview?station_id=RJOB&network_id=BW"]).
Proof.
  destruct waveform_methods_open_at_most_one_url as (_ & Hpre & _).
  destruct (Hpre waveform [VStr "BW"; VStr "RJOB"] ∅ [] (Return [])
              ["http://localhost:8080/seismology/waveform/getPreview?station_id=RJOB&network_id=BW"])
    as [[Hlog _]|[addr Hlog]].
  - vm_compute. reflexivity.
  - discriminate Hlog.
  - exists addr. symmetry. exact Hlog.
Defined.

Lemma getPAZ_opens_the_list_then_one_resource_witness :
  ∃ addr,
    ["http://localhost:8080/seismology/station/getList?station_id=MANZ&network_id=BW&datetime=20090707";
     "http://localhost:8080/xml/seismology/station/manz.xml?"]
    = [Client.remoteaddr seishub "/seismology/station/getList"
         (_StationMapperClient.list_kwargs (VStr "BW") (VStr "MANZ") (VInt 20090707));
       addr].
Proof.
  destruct (getPAZ_opens_the_list_then_one_resource station
              (VStr "BW") (VStr "MANZ") (VInt 20090707) "" "EHN" false []
              (_StationMapperClient.build_paz (response "601" ["-5"] ["6"])
                 (gain "0" "2801") (gain "1" "401") false)
              ["http://localhost:8080/seismology/station/getList?station_id=MANZ&network_id=BW&datetime=20090707";
               "http://localhost:8080/xml/seismology/station/manz.xml?"])
    as ([Hone|[addr Htwo]] & _ & _).
  - vm_compute. reflexivity.
  - exfalso. apply (f_equal length) in Hone. simpl in Hone. lia.
  - exists addr. exact Htwo.
Defined.

Lemma getPAZ_result_keys_witness :
  ∃ d, _StationMapperClient.build_paz (response "600" ["1"; "2"] ["3"; "4"])
         (gain "0" "2800") (gain "1" "400") true = Return d ∧
       dom d = {[ "poles"; "zeros"; "gain"; "sensitivity" ]} ∪ {[ "seismometer_gain" ]}.
Proof.
  eexists. split; [vm_compute; reflexivity|].
  apply (getPAZ_result_keys (response "600" ["1"; "2"] ["3"; "4"])
           (gain "0" "2800") (gain "1" "400") true).
  vm_compute. reflexivity.
Defined.

Lemma getPAZ_seismometer_gain_only_adds_an_entry_witness :
  ∃ d, _StationMapperClient.build_paz (response "600" ["1"; "2"] ["3"; "4"])
         (gain "0" "2800") (gain "1" "400") false
       = Return (delete "seismometer_gain" d) ∧
       d !! "seismometer_gain" = Some (PElement (leaf "sensitivity_gain" "400")).
Proof.
  eexists.
  edestruct (getPAZ_seismometer_gain_only_adds_an_entry
               (response "600" ["1"; "2"] ["3"; "4"]) (gain "0" "2800") (gain "1" "400"))
    as (sg & Hsg & Hentry & Hrun); [vm_compute; reflexivity|].
  split; [exact Hrun|].
  rewrite Hentry. vm_compute in Hsg. by injection Hsg as <-.
Defined.

Lemma complex_list_drops_surplus_parts_witness :
  _StationMapperClient.complex_list
    (zip [leaf "real_pole" "1"; leaf "real_pole" "2"; leaf "real_pole" "x"]
         [leaf "imaginary_pole" "3"; leaf "imaginary_pole" "4"])
  = Return [@INumber domain (1, 3)%Z; @INumber domain (2, 4)%Z].
Proof.
  destruct (complex_list_drops_surplus_parts
              [leaf "real_pole" "1"; leaf "real_pole" "2"; leaf "real_pole" "x"]
              [leaf "imaginary_pole" "3"; leaf "imaginary_pole" "4"]
              ([(1, 0)%Z; (2, 0)%Z] : list (@number domain))
              ([(3, 0)%Z; (4, 0)%Z] : list (@number domain))) as [Hrun _];
    [vm_compute; reflexivity ..|].
  exact Hrun.
Defined.

Lemma getPAZ_filtered_raises_IndexError_without_match_witness :
  _StationMapperClient.getPAZ station (VStr "BW") (VStr "MANZ") (VInt 20090707)
    "00" "EHZ" false []
  = (Raise IndexError,
     ["http://localhost:8080/seismology/station/getList?station_id=MANZ&network_id=BW&datetime=20090707";
      "http://localhost:8080/xml/seismology/station/manz.xml?"]).
Proof.
  apply (getPAZ_filtered_raises_IndexError_without_match
           station (VStr "BW") (VStr "MANZ") (VInt 20090707) "00" "EHZ" false []
           manz_header _ manz_resolves eq_refl eq_refl eq_refl).
  repeat (apply Forall_cons; split; [vm_compute; reflexivity|]). apply Forall_nil_2.
Defined.

Lemma paz_query_takes_first_response_after_first_match_witness :
  xpath (node "station_control_header"
           [channel "" "EHZ"; gain "0" "1"; channel "" "EHN";
            response "601" ["-5"] ["6"]])
        (paz_query "EHZ" "")
    ≫= first_item = Return (response "601" ["-5"] ["6"]).
Proof.
  apply (paz_query_takes_first_response_after_first_match
           (node "station_control_header"
              [channel "" "EHZ"; gain "0" "1"; channel "" "EHN";
               response "601" ["-5"] ["6"]])
           "EHZ" "" [] (channel "" "EHZ") [gain "0" "1"; channel "" "EHN"]
           (response "601" ["-5"] ["6"]) []);
    try reflexivity.
  - apply Forall_nil_2.
  - repeat (apply Forall_cons; split; [reflexivity|]). apply Forall_nil_2.
Defined.

Lemma getWaveform_sends_only_non_empty_codes_witness :
  (_WaveformMapperClient.getWaveform waveform "BW" "MANZ" "" "EHZ"
     (TStr "1000") (@TUTC domain 2000%Z) false ∅ []).2
  = ["http://localhost:8080/seismology/waveform/getWaveform?start_datetime=975&station_id=MANZ&channel_id=EHZ&end_datetime=2025&network_id=BW"].
Proof.
  assert (BAND_CODE !! "E" = Some 80%Z) as Hrate by (vm_compute; reflexivity).
  destruct (getWaveform_sends_only_non_empty_codes
              waveform "BW" "MANZ" "" "EHZ" (TStr "1000") (@TUTC domain 2000%Z) false ∅
              "E" 80%Z 1000%Z 2000%Z [] eq_refl Hrate eq_refl eq_refl)
    as (Hlog & _ & _).
  rewrite Hlog. vm_compute. reflexivity.
Defined.

End fixture_more.

Section fixture_listing.
#[local] Existing Instances Fixture.domain Fixture.listing_env Fixture.objectify.
Import Fixture.

Lemma bare_resolves :
  resolves station (VStr "BW") (VStr "BARE") (VInt 20090707) []
    (node "station_control_header" [leaf "station_identifier" "BARE"])
    ["http://localhost:8080/seismology/station/getList?station_id=BARE&network_id=BW&datetime=20090707";
     "http://localhost:8080/xml/seismology/station/bare.xml?"].
Proof.
  exists (__dict__ (node "item" [leaf "resource_name" "bare.xml"])), [],
    ["http://localhost:8080/seismology/station/getList?station_id=BARE&network_id=BW&datetime=20090707"].
  split; vm_compute; reflexivity.
Qed.

Lemma getPAZ_unfiltered_raises_AttributeError_without_nodes_witness :
  _StationMapperClient.getPAZ station (VStr "BW") (VStr "BARE") (VInt 20090707)
    "" "" false []
  = (Raise AttributeError,
     ["http://localhost:8080/seismology/station/getList?station_id=BARE&network_id=BW&datetime=20090707";
      "http://localhost:8080/xml/seismology/station/bare.xml?"]).
Proof.
  apply (getPAZ_unfiltered_raises_AttributeError_without_nodes
           station (VStr "BW") (VStr "BARE") (VInt 20090707) "" "" false [] _ _
           bare_resolves eq_refl eq_refl).
  left. reflexivity.
Defined.

Lemma getPAZ_raises_KeyError_without_resource_name_witness :
  _StationMapperClient.getPAZ station (VStr "BW") (VStr "ANON") (VInt 20090707)
    "" "" false []
  = (Raise KeyError,
     ["http://localhost:8080/seismology/station/getList?station_id=ANON&network_id=BW&datetime=20090707"]).
Proof.
  apply (getPAZ_raises_KeyError_without_resource_name
           station (VStr "BW") (VStr "ANON") (VInt 20090707) "" "" false []
           (__dict__ (node "item" [leaf "station_id" "ANON"])) []).
  - vm_compute. reflexivity.
  - vm_compute. reflexivity.
Defined.

Lemma id_listings_return_one_str_per_row_witness :
  (_WaveformMapperClient_listing.getNetworkIds waveform ∅ []).1 = Return ["BW"; "GR"] ∧
  (_WaveformMapperClient_listing.getStationIds waveform ∅ []).1 = Raise AttributeError.
Proof.
  assert (Client.reserved (∅ : gmap string value) = false) as Hfree
    by (vm_compute; reflexivity).
  split.
  - epose proof (id_listings_return_one_str_per_row
                   _WaveformMapperClient_listing.getNetworkIds "network"
                   "/seismology/waveform/getNetworkIds" waveform ∅ []
                   (node "result" [node "item" [leaf "network" "BW"];
                                   node "item" [leaf "network" "GR"; leaf "network" "XX"]])
                   _ _) as Hnet.
    rewrite Hfree in Hnet. destruct Hnet as [Hall _].
    destruct Hall as (ids & Hrun & _).
    + repeat (apply Forall_cons; split; [discriminate|]). apply Forall_nil_2.
    + rewrite Hrun. vm_compute in Hrun. by injection Hrun as <-.
  - epose proof (id_listings_return_one_str_per_row
                   _WaveformMapperClient_listing.getStationIds "station"
                   "/seismology/waveform/getStationIds" waveform ∅ []
                   (node "result" [node "item" [leaf "station" "MANZ"];
                                   node "item" [leaf "network" "BW"]])
                   _ _) as Hsta.
    rewrite Hfree in Hsta. destruct Hsta as [_ Hsome].
    apply Hsome. apply Exists_cons_tl, Exists_cons_hd. reflexivity.
  Unshelve.
  all: first [left | right; left | vm_compute; reflexivity].
Defined.

(** C2 names the nearest following siblings whatever the filter.  The filter
    is written between apostrophes into the XPath expression: with a channel
    code that holds one, the three siblings are there and the call fails in
    the evaluation of the expression. *)
Lemma getPAZ_filter_with_apostrophe_counterexample :
  _StationMapperClient.filtered (unset_if_wildcard "E'Z") (unset_if_wildcard "") = true ∧
  nearest_following (is_channel "E'Z" "") is_paz (children quot_header)
    = Some (response "800" ["1"] ["2"]) ∧
  nearest_following (is_channel "E'Z" "") (is_gain_stage "0") (children quot_header)
    = Some (gain "0" "3000") ∧
  nearest_following (is_channel "E'Z" "") (is_gain_stage "1") (children quot_header)
    = Some (gain "1" "500") ∧
  show_query (paz_query "E'Z" "")
    = "channel_identifier[channel_identifier='E'Z' and location_identifier='']/following-sibling::response_poles_and_zeros" ∧
  _StationMapperClient.getPAZ station (VStr "BW") (VStr "QUOT") (VInt 20090707)
    "" "E'Z" true []
  = (Raise (ExternalError "XPathEvalError"),
     ["http://localhost:8080/seismology/station/getList?station_id=QUOT&network_id=BW&datetime=20090707";
      "http://localhost:8080/xml/seismology/station/quot.xml?"]).
Proof. do 5 (split; [vm_compute; reflexivity|]). vm_compute. reflexivity. Qed.

(** C10 names a lookup error.  With a channel code that holds an apostrophe
    the first XPath expression is refused, and the stage 1 lookup is not
    reached. *)
Lemma getPAZ_stage_1_not_reached_counterexample :
  _StationMapperClient.filtered (unset_if_wildcard "E'N") (unset_if_wildcard "") = true ∧
  nearest_following (is_channel "E'N" "") is_paz (children quot_header)
    = Some (response "801" ["3"] ["4"]) ∧
  nearest_following (is_channel "E'N" "") (is_gain_stage "0") (children quot_header)
    = Some (gain "0" "3001") ∧
  nearest_following (is_channel "E'N" "") (is_gain_stage "1") (children quot_header)
    = None ∧
  _StationMapperClient.getPAZ station (VStr "BW") (VStr "QUOT") (VInt 20090707)
    "" "E'N" false []
  = (Raise (ExternalError "XPathEvalError"),
     ["http://localhost:8080/seismology/station/getList?station_id=QUOT&network_id=BW&datetime=20090707";
      "http://localhost:8080/xml/seismology/station/quot.xml?"]).
Proof. do 4 (split; [vm_compute; reflexivity|]). vm_compute. reflexivity. Qed.

End fixture_listing.
